(** * tissueMAP: the training entry point [src/train.py]

    A shallow embedding of [get_run_name] and [train], together with the
    parts of the Python runtime they lean on: [str.find] and slicing,
    [datetime.isoformat], [pathlib] paths, [Path.mkdir], [open]/[write],
    and the calls into torch, fastai and the repository's own [data] and
    [utils] modules, which are recorded as a trace of calls with their
    arguments. *)

From Stdlib Require Import ZArith NArith Ascii String DecimalString DecimalN Lia.
From stdpp Require Import gmap strings list.

Local Open Scope Z_scope.

(** ** Python strings *)

Module PyStr.

(** [c in s] for a one-character [c]. *)
Fixpoint contains (c : ascii) (s : string) : bool :=
  match s with
  | EmptyString => false
  | String a s' => if Ascii.eqb a c then true else contains c s'
  end.

(** [s[k:]] for an in-range, non-negative [k]. *)
Fixpoint drop (k : nat) (s : string) : string :=
  match k, s with
  | O, _ => s
  | S _, EmptyString => EmptyString
  | S k', String _ s' => drop k' s'
  end.

(** [s.find(sub)], scanning from offset [i]: the lowest index at which
    [sub] starts, and [-1] when it starts nowhere. *)
Fixpoint find_at (sub s : string) (i : Z) : Z :=
  if String.prefix sub s then i
  else match s with
       | EmptyString => -1
       | String _ s' => find_at sub s' (i + 1)
       end.

Definition find (s sub : string) : Z := find_at sub s 0.

(** [s[start:]], with Python's treatment of negative and overlong
    indices. *)
Definition slice_from (s : string) (start : Z) : string :=
  let n := Z.of_nat (String.length s) in
  let k := if start <? 0 then Z.max 0 (start + n) else Z.min start n in
  drop (Z.to_nat k) s.

(** [str(b)] for a [bool]. *)
Definition str_of_bool (b : bool) : string :=
  if b then "True" else "False".

(** [str(n)] / [%d] for a non-negative integer. *)
Definition str_of_N (n : N) : string :=
  NilEmpty.string_of_uint (N.to_uint n).

Fixpoint zeros (k : nat) : string :=
  match k with
  | O => EmptyString
  | S k' => String "0" (zeros k')
  end.

(** [%0wd] and [{:0wd}]: left-pad with zeros up to width [w]; a longer
    number is printed in full. *)
Definition format_0d (w : nat) (n : N) : string :=
  let s := str_of_N n in
  zeros (w - String.length s) +:+ s.

(** [s.rpartition(sep)] for a one-character [sep], as
    [Some (before, after)]; [None] when [sep] does not occur. *)
Fixpoint rpartition (sep : ascii) (s : string) : option (string * string) :=
  match s with
  | EmptyString => None
  | String a s' =>
      match rpartition sep s' with
      | Some (l, r) => Some (String a l, r)
      | None => if Ascii.eqb a sep then Some (EmptyString, s') else None
      end
  end.

(** [s.partition(sep)], same conventions. *)
Fixpoint partition (sep : ascii) (s : string) : option (string * string) :=
  match s with
  | EmptyString => None
  | String a s' =>
      if Ascii.eqb a sep then Some (EmptyString, s')
      else match partition sep s' with
           | Some (l, r) => Some (String a l, r)
           | None => None
           end
  end.

(** [s.removeprefix(p)] when [s] starts with [p]. *)
Fixpoint strip_prefix (p s : string) : option string :=
  match p, s with
  | EmptyString, _ => Some s
  | String a p', String b s' =>
      if Ascii.eqb a b then strip_prefix p' s' else None
  | String _ _, EmptyString => None
  end.

End PyStr.

(** *** Decimal digits *)

Definition is_digit (a : ascii) : bool :=
  match Ascii.is_nat a with
  | Some _ => true
  | None => false
  end.

Fixpoint all_digits (s : string) : bool :=
  match s with
  | EmptyString => true
  | String a s' => is_digit a && all_digits s'
  end.

(** The number a string of digits denotes. *)
Definition digits_value (s : string) : option N :=
  N.of_uint <$> NilEmpty.uint_of_string s.

(** ** [datetime] *)

Module DateTime.

(** A naive [datetime] as returned by [datetime.now()]. *)
Record datetime := mk_datetime {
  year : N;
  month : N;
  day : N;
  hour : N;
  minute : N;
  second : N;
  microsecond : N;
}.

(** [t.isoformat(timespec="milliseconds")]:
    ["%04d-%02d-%02d" % (y, m, d)], the separator ["T"], then
    ["{:02d}:{:02d}:{:02d}.{:03d}"] with the microseconds divided by
    1000. *)
Definition isoformat_milliseconds (t : datetime) : string :=
  PyStr.format_0d 4 (year t) +:+ "-" +:+
  PyStr.format_0d 2 (month t) +:+ "-" +:+
  PyStr.format_0d 2 (day t) +:+ "T" +:+
  PyStr.format_0d 2 (hour t) +:+ ":" +:+
  PyStr.format_0d 2 (minute t) +:+ ":" +:+
  PyStr.format_0d 2 (second t) +:+ "." +:+
  PyStr.format_0d 3 (microsecond t / 1000).

(** The clock reading at millisecond resolution. *)
Definition millis_stamp (t : datetime) : list N :=
  [year t; month t; day t; hour t; minute t; second t;
   (microsecond t / 1000)%N].

(** Microseconds since midnight. *)
Definition micros_of_day (t : datetime) : N :=
  (((hour t * 60 + minute t) * 60 + second t) * 1000000 + microsecond t)%N.

End DateTime.

Import DateTime.

(** ** [get_run_name] *)

(** The local [backbone_name] of [get_run_name]:
    [backbone[backbone.find("/") + 1 :]]. *)
Definition backbone_name (backbone : string) : string :=
  PyStr.slice_from backbone (PyStr.find backbone "/" + 1).

(** [get_run_name(backbone, is_binary)]; [now] is the value
    [datetime.now()] returns during the call. *)
Definition get_run_name (now : datetime) (backbone : string)
    (is_binary : bool) : string :=
  let time := isoformat_milliseconds now in
  let backbone_name := backbone_name backbone in
  backbone_name +:+ "_binary=" +:+ PyStr.str_of_bool is_binary +:+ "_" +:+ time.

(** *** Reading a run name back

    A run name is [<backbone>_binary=<flag>_<time>].  Neither the flag
    nor the timestamp contains an underscore, so the three segments are
    recovered by splitting at the last two underscores, as
    [run_name.rsplit("_", 2)] does. *)

Record run_segments := mk_segments {
  seg_backbone : string;
  seg_binary : string;
  seg_time : string;
}.

Definition parse_run_name (run_name : string) : option run_segments :=
  match PyStr.rpartition "_" run_name with
  | None => None
  | Some (rest, time) =>
      match PyStr.rpartition "_" rest with
      | None => None
      | Some (bb, flag) =>
          match PyStr.strip_prefix "binary=" flag with
          | None => None
          | Some v => Some (mk_segments bb v time)
          end
      end
  end.

(** The substring after the last ['/'] and after the first ['/']. *)
Definition after_last_slash (s : string) : option string :=
  snd <$> PyStr.rpartition "/" s.

Definition after_first_slash (s : string) : option string :=
  snd <$> PyStr.partition "/" s.


(** ** [pathlib] paths (POSIX flavour) *)

Module PurePath.

(** [s.split(sep)] for a one-character [sep]. *)
Fixpoint split (sep : ascii) (s : string) : list string :=
  match s with
  | EmptyString => [EmptyString]
  | String a s' =>
      if Ascii.eqb a sep then EmptyString :: split sep s'
      else match split sep s' with
           | [] => [String a EmptyString]
           | w :: ws => String a w :: ws
           end
  end.

(** A parsed path: whether it starts at the root, and its components.
    Empty components and ["."] are dropped when parsing; [".."] is
    kept. *)
Record path := mk_path {
  anchored : bool;
  parts : list string;
}.

Definition is_component (c : string) : bool :=
  negb (String.eqb c EmptyString) && negb (String.eqb c ".").

(** [Path(s)] *)
Definition Path (s : string) : path :=
  {| anchored := String.prefix "/" s;
     parts := List.filter is_component (split "/" s) |}.

(** [p / q] *)
Definition join (p q : path) : path :=
  if anchored q then q
  else {| anchored := anchored p; parts := parts p ++ parts q |}.

(** The last component and what precedes it. *)
Fixpoint unsnoc {A} (l : list A) : option (list A * A) :=
  match l with
  | [] => None
  | x :: l' =>
      match unsnoc l' with
      | None => Some ([], x)
      | Some (i, y) => Some (x :: i, y)
      end
  end.

(** [p.parent]; the parent of ["/"] and of ["."] is the path itself. *)
Definition parent (p : path) : path :=
  match unsnoc (parts p) with
  | None => p
  | Some (i, _) => {| anchored := anchored p; parts := i |}
  end.

End PurePath.

Import PurePath.
Infix "//" := join (at level 40, left associativity).

(** ** Exceptions *)

Inductive errno := ENOENT | EEXIST | ENOTDIR | EISDIR | ENAMETOOLONG.

(** [OSError e] stands for the subclass Python picks for [e]:
    [FileNotFoundError], [FileExistsError], [NotADirectoryError],
    [IsADirectoryError], and [OSError] itself for [ENAMETOOLONG].
    [Raised c] is any exception raised inside a library call, by class
    name. *)
Inductive exn :=
| OSError (e : errno)
| Raised (cls : string).

(** ** The file system

    A tree of directories and regular files, keyed by the absolute list of
    names leading to each node; no symbolic links, no permissions.  The
    root and the working directory are directories. *)

Module FS.

Inductive node :=
| Dir
| File (content : string).

Record filesystem := mk_fs {
  nodes : gmap (list string) node;
  cwd : list string;
}.

Definition node_at (f : filesystem) (k : list string) : option node :=
  match k with
  | [] => Some Dir
  | _ => nodes f !! k
  end.

Definition start (f : filesystem) (p : path) : list string :=
  if anchored p then [] else cwd f.

Definition up (k : list string) : list string :=
  match unsnoc k with
  | None => []
  | Some (i, _) => i
  end.

(** Descend from directory [cur] through [comps], each of which must
    name a directory. *)
Fixpoint walk (f : filesystem) (cur : list string) (comps : list string)
    : errno + list string :=
  match comps with
  | [] => inr cur
  | c :: rest =>
      if String.eqb c ".." then walk f (up cur) rest
      else match node_at f (cur ++ [c]) with
           | Some Dir => walk f (cur ++ [c]) rest
           | Some (File _) => inl ENOTDIR
           | None => inl ENOENT
           end
  end.

(** [p.is_dir()] *)
Definition is_dir (f : filesystem) (p : path) : bool :=
  match walk f (start f p) (parts p) with
  | inr _ => true
  | inl _ => false
  end.

Definition set_node (k : list string) (n : node) (f : filesystem)
    : filesystem :=
  {| nodes := <[k := n]> (nodes f); cwd := cwd f |}.

(** The longest name, in bytes, a directory takes for a new entry
    ([NAME_MAX] of the Linux file systems). *)
Definition NAME_MAX : nat := 255.

Definition fits (name : string) : bool :=
  Nat.leb (String.length name) NAME_MAX.

(** [os.mkdir(p)].  A name that is there has been given to the disk
    before, so only a new name is measured. *)
Definition os_mkdir (p : path) (f : filesystem) : errno + filesystem :=
  match unsnoc (parts p) with
  | None => inl EEXIST
  | Some (init, name) =>
      match walk f (start f p) init with
      | inl e => inl e
      | inr d =>
          if String.eqb name ".." then inl EEXIST
          else match node_at f (d ++ [name]) with
               | Some _ => inl EEXIST
               | None =>
                   if fits name then inr (set_node (d ++ [name]) Dir f)
                   else inl ENAMETOOLONG
               end
      end
  end.

(** [Path.mkdir] on the path [mk_path a (rev rparts)]:
<<
    try: os.mkdir(self, mode)
    except FileNotFoundError:
        if not parents or self.parent == self: raise
        self.parent.mkdir(parents=True, exist_ok=True)
        self.mkdir(mode, parents=False, exist_ok=exist_ok)
    except OSError:
        if not exist_ok or not self.is_dir(): raise
>>
    The recursion is on the components from the last one down; the
    inner call with [parents=False] cannot recurse and is [mkdir_flat].
    A failing call keeps the directories it has made. *)
Definition mkdir_flat (p : path) (exist_ok : bool) (f : filesystem)
    : (exn + unit) * filesystem :=
  match os_mkdir p f with
  | inr f' => (inr tt, f')
  | inl ENOENT => (inl (OSError ENOENT), f)
  | inl e =>
      if negb exist_ok || negb (is_dir f p) then (inl (OSError e), f)
      else (inr tt, f)
  end.

Fixpoint mkdir_rev (a : bool) (rparts : list string)
    (parents exist_ok : bool) (f : filesystem)
    : (exn + unit) * filesystem :=
  let p := mk_path a (rev rparts) in
  match os_mkdir p f with
  | inr f' => (inr tt, f')
  | inl ENOENT =>
      match rparts with
      | [] => (inl (OSError ENOENT), f)
      | _ :: rparent =>
          if negb parents then (inl (OSError ENOENT), f)
          else match mkdir_rev a rparent true true f with
               | (inl e, f1) => (inl e, f1)
               | (inr _, f1) => mkdir_flat p exist_ok f1
               end
      end
  | inl e =>
      if negb exist_ok || negb (is_dir f p) then (inl (OSError e), f)
      else (inr tt, f)
  end.

Definition mkdir (p : path) (parents exist_ok : bool) (f : filesystem)
    : (exn + unit) * filesystem :=
  mkdir_rev (anchored p) (rev (parts p)) parents exist_ok f.

(** [open(p, mode)] for [mode] ["w"] ([truncate = true]) and ["a"]: the
    file is created when missing, emptied in mode ["w"]; the handle is
    the node the path resolved to. *)
Definition open (p : path) (truncate : bool) (f : filesystem)
    : (exn + list string) * filesystem :=
  match unsnoc (parts p) with
  | None => (inl (OSError EISDIR), f)
  | Some (init, name) =>
      match walk f (start f p) init with
      | inl e => (inl (OSError e), f)
      | inr d =>
          if String.eqb name ".." then (inl (OSError EISDIR), f)
          else
            let k := d ++ [name] in
            match node_at f k with
            | Some Dir => (inl (OSError EISDIR), f)
            | Some (File c) =>
                (inr k, if truncate then set_node k (File EmptyString) f else f)
            | None => (inr k, set_node k (File EmptyString) f)
            end
      end
  end.

(** [h.write(s)] on a handle in either mode: the text goes at the end. *)
Definition write (h : list string) (s : string) (f : filesystem)
    : filesystem :=
  match nodes f !! h with
  | Some (File c) => set_node h (File (c +:+ s)) f
  | _ => f
  end.

(** The text of the regular file [p] names. *)
Definition read_text (f : filesystem) (p : path) : option string :=
  match unsnoc (parts p) with
  | None => None
  | Some (init, name) =>
      match walk f (start f p) init with
      | inl _ => None
      | inr d =>
          if String.eqb name ".." then None
          else match node_at f (d ++ [name]) with
               | Some (File c) => Some c
               | _ => None
               end
      end
  end.

End FS.

Import FS.

(** ** Properties of file system states *)

(** Every directory of [f] is a directory of [f'], and the working
    directory is the same. *)
Definition dirs_le (f f' : filesystem) : Prop :=
  cwd f = cwd f' /\
  forall k, node_at f k = Some Dir -> node_at f' k = Some Dir.

(** The directories [d/x1], [d/x1/x2], ... added to [f]. *)
Fixpoint add_dirs (d names : list string) (f : filesystem) : filesystem :=
  match names with
  | [] => f
  | x :: rest => add_dirs (d ++ [x]) rest (set_node (d ++ [x]) Dir f)
  end.

(** A component that names an entry, not the parent directory. *)
Definition plain (c : string) : Prop := String.eqb c ".." = false.

(** [p] resolves to the entry [h] of [f]: its last component is a plain
    name inside the directory the other components lead to. *)
Definition resolves (f : filesystem) (p : path) (h : list string) : Prop :=
  exists init name d,
    unsnoc (parts p) = Some (init, name) /\
    walk f (start f p) init = inr d /\
    plain name /\
    h = d ++ [name].

(** [p] is a directory of [f], found at [D], with no directory directly
    inside it. *)
Definition ready_dir (f : filesystem) (p : path) (D : list string) : Prop :=
  walk f (start f p) (parts p) = inr D /\
  forall name, nodes f !! (D ++ [name]) <> Some Dir.

(** ** Values handed to and returned by the libraries

    An object built by a library is represented by the arguments it was
    built from. *)

(** A float literal [mantissa * 10 ^ exponent], e.g. [1e-4]. *)
Record pyfloat := Float {
  mantissa : Z;
  exponent : Z;
}.

(** [torch.device(kind)] *)
Inductive device := TorchDevice (kind : string).

(** What [train] reads off the object
    [AutoImageProcessor.from_pretrained(backbone)] returns. *)
Record image_processor := mk_image_processor {
  size_height : N;
  size_width : N;
  image_mean : list pyfloat;
  image_std : list pyfloat;
}.

(** [get_augmentation(img_size, mean, std[, validation=...])];
    [aug_validation] is [None] when the keyword is not passed. *)
Record augmentation := mk_augmentation {
  aug_img_size : N * N;
  aug_mean : list pyfloat;
  aug_std : list pyfloat;
  aug_validation : option bool;
}.

(** [HistoCRCDataset(root, augmentation=..., reduce_to_binary=...)] and
    the class count it reports. *)
Record dataset := mk_dataset {
  ds_root : string;
  ds_augmentation : augmentation;
  ds_reduce_to_binary : bool;
  n_classes : N;
}.

Record data_loader := mk_data_loader {
  dl_dataset : dataset;
  dl_batch_size : Z;
  dl_shuffle : bool;
  dl_num_workers : option N;
  dl_pin_memory : bool;
  dl_drop_last : bool;
}.

(** [torch.utils.data.DataLoader(dataset, batch_size=..., shuffle=...,
    num_workers=..., pin_memory=..., drop_last=False)]: [drop_last] keeps
    torch's default unless passed. *)
Definition DataLoader (ds : dataset) (batch_size : Z) (shuffle : bool)
    (num_workers : option N) (pin_memory : bool) (drop_last : option bool)
    : data_loader :=
  {| dl_dataset := ds; dl_batch_size := batch_size; dl_shuffle := shuffle;
     dl_num_workers := num_workers; dl_pin_memory := pin_memory;
     dl_drop_last := default false drop_last |}.

(** The two results of [load_model(backbone, n_classes)]. *)
Record model := mk_model {
  model_backbone : string;
  model_n_classes : N;
}.

Record config := mk_config {
  config_backbone : string;
  config_n_classes : N;
}.

(** [ds.inv_weights().to(device)] *)
Record tensor := InvWeights {
  weights_of : dataset;
  weights_on : device;
}.

Record loss := CrossEntropyLoss {
  loss_weight : tensor;
  label_smoothing : Z;
}.

Inductive metric :=
| AccumMetric_accuracy (flatten : bool)
| Precision (average : string)
| Recall (average : string)
| F1Score (average : string)
| RocAucBinary (average : string)
| RocAuc (average : string).

Record data_loaders := DataLoaders {
  dls_train : data_loader;
  dls_valid : data_loader;
  dls_device : device;
}.

Record learner := Learner {
  lrn_dls : data_loaders;
  lrn_model : model;
  lrn_loss_func : loss;
  lrn_lr : pyfloat;
  lrn_wd : pyfloat;
  lrn_metrics : list metric;
  lrn_path : path;
}.

Inductive callback :=
| EarlyStoppingCallback (monitor : string) (min_delta : pyfloat) (patience : N)
| CSVLogger.

(** ** Calls that leave the program

    The calls of [train] into torch, transformers, fastai and the
    repository's [data] and [utils] modules, with their arguments.  The
    builders of plain configuration objects ([torch.device],
    [CrossEntropyLoss], the metrics, [DataLoaders], the callbacks) are not
    listed: what they build appears inside the arguments of the calls
    that receive it. *)

Inductive event :=
| set_float32_matmul_precision (precision : string)
| from_pretrained (backbone : string)
| get_augmentation (a : augmentation)
| HistoCRCDataset (ds : dataset)
| new_DataLoader (dl : data_loader)
| describe (ds : dataset)
| load_model (backbone : string) (n_classes : N)
| model_to (m : model) (d : device)
| print (items : list string)
| inv_weights_to (t : tensor)
| new_Learner (l : learner)
| fit_one_cycle (l : learner) (n_epoch : N) (lr_max : pyfloat)
    (cbs : list callback)
| save_pretrained (c : config) (dir : path)
| torch_save (m : model) (file : path)
| validate (m : model) (dl : data_loader)
| validate_binarized (m : model) (dl : data_loader).

(** What the outside answers. [raises ev] is the exception a call ends
    with, if it does not return. *)
Record env := mk_env {
  now : datetime;
  cuda_is_available : bool;
  cpu_count : option N;
  pretrained_processor : string -> image_processor;
  reported_n_classes : string -> bool -> N;
  head_repr : model -> string;
  trainable_parameters : model -> N;
  history_csv : learner -> string;
  config_json : config -> string;
  state_dict : model -> string;
  validate_report : model -> data_loader -> string;
  validate_binarized_report : model -> data_loader -> string;
  raises : event -> option exn;
}.

(** ** The program state and its monad *)

Record world := mk_world {
  w_fs : filesystem;
  w_trace : list event;
}.

(** A computation ends with a value or a raised exception; the state
    survives either way. *)
Definition M (A : Type) : Type := world -> (exn + A) * world.

#[global] Instance M_ret : MRet M := fun A a w => (inr a, w).

#[global] Instance M_bind : MBind M := fun A B k m w =>
  match m w with
  | (inl e, w') => (inl e, w')
  | (inr a, w') => k a w'
  end.

(** A computation that places no call. *)
Definition silent {A} (m : M A) : Prop :=
  forall w r w', m w = (r, w') -> w_trace w' = w_trace w.

(** A filesystem operation, lifted. *)
Definition on_fs {A} (op : filesystem -> (exn + A) * filesystem) : M A :=
  fun w =>
    let '(r, f) := op (w_fs w) in
    (r, {| w_fs := f; w_trace := w_trace w |}).

Definition fwrite (h : list string) (s : string) : M unit :=
  on_fs (fun f => (inr tt, FS.write h s f)).

(** [5 * "\n"] and the like. *)
Fixpoint str_repeat (k : nat) (s : string) : string :=
  match k with
  | O => EmptyString
  | S k' => s +:+ str_repeat k' s
  end.

Definition newline : string := String "010"%char EmptyString.

(** ** [train] *)

Section Train.

Variable E : env.

(** A library call: it raises what the outside says it raises, and is
    recorded once it has returned. *)
Definition call (ev : event) : M unit := fun w =>
  match raises E ev with
  | Some x => (inl x, w)
  | None => (inr tt, {| w_fs := w_fs w; w_trace := w_trace w ++ [ev] |})
  end.

Definition fopen (p : path) (truncate : bool) : M (list string) :=
  on_fs (FS.open p truncate).

(** A file a library call leaves behind: [history.csv] of the
    [CSVLogger], [config.json] of [save_pretrained], and the file
    [torch.save] is pointed at. *)
Definition library_writes (p : path) (text : string) : M unit :=
  h ← fopen p true;
  fwrite h text.

Definition train (backbone train_dir valid_dir save_dir : string)
    (batch_size : Z) (binary : bool) : M model :=
  let run_name := get_run_name (now E) backbone binary in
  let model_save_path := Path save_dir // Path run_name in
  _ ← on_fs (FS.mkdir model_save_path true true);

  let use_gpu := cuda_is_available E in
  let device := TorchDevice (if use_gpu then "cuda" else "cpu") in
  _ ← (if use_gpu then call (set_float32_matmul_precision "high")
       else mret tt);

  (* generate augmentation *)
  _ ← call (from_pretrained backbone);
  let image_processor := pretrained_processor E backbone in
  let img_size :=
    (size_height image_processor, size_width image_processor) in
  let mean := image_mean image_processor in
  let std := image_std image_processor in
  let train_aug := mk_augmentation img_size mean std None in
  _ ← call (get_augmentation train_aug);
  let valid_aug := mk_augmentation img_size mean std (Some true) in
  _ ← call (get_augmentation valid_aug);

  (* initialize datasets and dataloaders *)
  let train_ds :=
    mk_dataset train_dir train_aug binary
      (reported_n_classes E train_dir binary) in
  _ ← call (HistoCRCDataset train_ds);
  let valid_ds :=
    mk_dataset valid_dir valid_aug binary
      (reported_n_classes E valid_dir binary) in
  _ ← call (HistoCRCDataset valid_ds);
  let train_dl :=
    DataLoader train_ds batch_size true (cpu_count E) true (Some true) in
  _ ← call (new_DataLoader train_dl);
  let valid_dl :=
    DataLoader valid_ds batch_size false (cpu_count E) true None in
  _ ← call (new_DataLoader valid_dl);
  _ ← call (describe train_ds);

  (* initialize model *)
  _ ← call (load_model backbone (n_classes train_ds));
  let model := mk_model backbone (n_classes train_ds) in
  let config := mk_config backbone (n_classes train_ds) in
  _ ← call (model_to model device);
  _ ← call (print [head_repr E model]);
  _ ← call (print ["Trainable parameters: ";
                   PyStr.str_of_N (trainable_parameters E model)]);

  (* initialize fastai learner *)
  let weight := InvWeights train_ds device in
  _ ← call (inv_weights_to weight);
  let criterion := CrossEntropyLoss weight 0 in
  let dls := DataLoaders train_dl valid_dl device in
  let learner :=
    Learner dls model criterion (Float 1 (-4)) (Float 1 (-6))
      [ AccumMetric_accuracy false;
        Precision "macro";
        Recall "macro";
        F1Score "macro";
        if binary then RocAucBinary "macro" else RocAuc "macro" ]
      model_save_path in
  _ ← call (new_Learner learner);

  let cbs :=
    [ EarlyStoppingCallback "valid_loss" (Float 1 (-2)) 4;
      CSVLogger ] in

  _ ← call (fit_one_cycle learner 4 (Float 1 (-4)) cbs);
  _ ← library_writes (lrn_path learner // Path "history.csv")
        (history_csv E learner);

  (* save best checkpoint *)
  _ ← call (save_pretrained config model_save_path);
  _ ← library_writes (model_save_path // Path "config.json")
        (config_json E config);
  _ ← call (torch_save model (model_save_path // Path "model.pt"));
  _ ← library_writes (model_save_path // Path "model.pt")
        (state_dict E model);

  (* store performance of best checkpoint on validation dataset in file *)
  _ ← call (validate model valid_dl);
  let report := validate_report E model valid_dl in
  _ ← call (print [report]);
  f ← fopen (model_save_path // Path "report.txt") true;
  _ ← fwrite f report;
  _ ← (if negb binary then
         _ ← call (validate_binarized model valid_dl);
         let report := validate_binarized_report E model valid_dl in
         _ ← call (print [report]);
         f ← fopen (model_save_path // Path "report.txt") false;
         _ ← fwrite f (str_repeat 5 newline +:+ "Binarized:");
         fwrite f report
       else mret tt);

  mret model.

End Train.

(** The script's own call, from the [__main__] block. *)
Definition main_backbone : string :=
  "microsoft/swinv2-tiny-patch4-window8-256".

(** A quiet environment and an empty disk, to run the definitions on. *)
Definition sample_env (gpu : bool) : env :=
  {| now := mk_datetime 2024 3 7 9 5 2 41999;
     cuda_is_available := gpu;
     cpu_count := Some 8%N;
     pretrained_processor := fun _ =>
       mk_image_processor 256 256 [Float 485 (-3)] [Float 229 (-3)];
     reported_n_classes := fun _ b => if b then 2%N else 9%N;
     head_repr := fun _ => "Linear";
     trainable_parameters := fun _ => 27%N;
     history_csv := fun _ => "epoch,train_loss";
     config_json := fun _ => "{}";
     state_dict := fun _ => "weights";
     validate_report := fun _ _ => "accuracy 0.9";
     validate_binarized_report := fun _ _ => "accuracy 0.95";
     raises := fun _ => None |}.

Definition empty_world : world :=
  {| w_fs := {| nodes := ∅; cwd := ["home"; "user"] |}; w_trace := [] |}.

(** ** Describing a run of [train] *)

(** The directory of a run, the model [load_model] returns to it, and
    its validation loader. *)
Definition run_directory (E : env) (save_dir backbone : string)
    (binary : bool) : path :=
  Path save_dir // Path (get_run_name (now E) backbone binary).

Definition loaded_model (E : env) (backbone train_dir : string)
    (binary : bool) : model :=
  mk_model backbone (reported_n_classes E train_dir binary).

Definition validation_loader (E : env) (backbone valid_dir : string)
    (batch_size : Z) (binary : bool) : data_loader :=
  let image_processor := pretrained_processor E backbone in
  let valid_aug :=
    mk_augmentation
      (size_height image_processor, size_width image_processor)
      (image_mean image_processor) (image_std image_processor) (Some true) in
  DataLoader
    (mk_dataset valid_dir valid_aug binary
       (reported_n_classes E valid_dir binary))
    batch_size false (cpu_count E) true None.

(** The calls of a run of [train] that returns, in order. *)
Definition train_calls (E : env) (backbone train_dir valid_dir
    save_dir : string) (batch_size : Z) (binary : bool) : list event :=
  let model_save_path :=
    Path save_dir // Path (get_run_name (now E) backbone binary) in
  let device :=
    TorchDevice (if cuda_is_available E then "cuda" else "cpu") in
  let image_processor := pretrained_processor E backbone in
  let img_size :=
    (size_height image_processor, size_width image_processor) in
  let mean := image_mean image_processor in
  let std := image_std image_processor in
  let train_aug := mk_augmentation img_size mean std None in
  let valid_aug := mk_augmentation img_size mean std (Some true) in
  let train_ds :=
    mk_dataset train_dir train_aug binary
      (reported_n_classes E train_dir binary) in
  let valid_ds :=
    mk_dataset valid_dir valid_aug binary
      (reported_n_classes E valid_dir binary) in
  let train_dl :=
    DataLoader train_ds batch_size true (cpu_count E) true (Some true) in
  let valid_dl :=
    DataLoader valid_ds batch_size false (cpu_count E) true None in
  let model := mk_model backbone (n_classes train_ds) in
  let config := mk_config backbone (n_classes train_ds) in
  let weight := InvWeights train_ds device in
  let learner :=
    Learner (DataLoaders train_dl valid_dl device) model
      (CrossEntropyLoss weight 0) (Float 1 (-4)) (Float 1 (-6))
      [ AccumMetric_accuracy false; Precision "macro"; Recall "macro";
        F1Score "macro";
        if binary then RocAucBinary "macro" else RocAuc "macro" ]
      model_save_path in
  (if cuda_is_available E then [set_float32_matmul_precision "high"] else [])
  ++ [ from_pretrained backbone;
       get_augmentation train_aug;
       get_augmentation valid_aug;
       HistoCRCDataset train_ds;
       HistoCRCDataset valid_ds;
       new_DataLoader train_dl;
       new_DataLoader valid_dl;
       describe train_ds;
       load_model backbone (n_classes train_ds);
       model_to model device;
       print [head_repr E model];
       print ["Trainable parameters: ";
              PyStr.str_of_N (trainable_parameters E model)];
       inv_weights_to weight;
       new_Learner learner;
       fit_one_cycle learner 4 (Float 1 (-4))
         [EarlyStoppingCallback "valid_loss" (Float 1 (-2)) 4; CSVLogger];
       save_pretrained config model_save_path;
       torch_save model (model_save_path // Path "model.pt");
       validate model valid_dl;
       print [validate_report E model valid_dl] ]
  ++ (if binary then []
      else [ validate_binarized model valid_dl;
             print [validate_binarized_report E model valid_dl] ]).

(** The text of [report.txt] after such a run. *)
Definition report_txt (E : env) (m : model) (valid_dl : data_loader)
    (binary : bool) : string :=
  if binary then validate_report E m valid_dl
  else validate_report E m valid_dl
       +:+ str_repeat 5 newline +:+ "Binarized:"
       +:+ validate_binarized_report E m valid_dl.

(** ** Reading a trace *)

(** The calls placed between two states of a run. *)
Definition calls_during (w w' : world) : list event :=
  drop (length (w_trace w)) (w_trace w').

Definition fit_calls (tr : list event)
    : list (learner * N * pyfloat * list callback) :=
  omap (fun ev => match ev with
                  | fit_one_cycle l n lr cbs => Some (l, n, lr, cbs)
                  | _ => None
                  end) tr.

Definition loaders_built (tr : list event) : list data_loader :=
  omap (fun ev => match ev with
                  | new_DataLoader dl => Some dl
                  | _ => None
                  end) tr.

Definition datasets_built (tr : list event) : list dataset :=
  omap (fun ev => match ev with
                  | HistoCRCDataset ds => Some ds
                  | _ => None
                  end) tr.

Definition load_model_calls (tr : list event) : list (string * N) :=
  omap (fun ev => match ev with
                  | load_model b n => Some (b, n)
                  | _ => None
                  end) tr.

Definition precision_settings (tr : list event) : list string :=
  omap (fun ev => match ev with
                  | set_float32_matmul_precision s => Some s
                  | _ => None
                  end) tr.

Definition binarized_validations (tr : list event)
    : list (model * data_loader) :=
  omap (fun ev => match ev with
                  | validate_binarized m dl => Some (m, dl)
                  | _ => None
                  end) tr.

(** The devices and the models a call is handed. *)
Definition devices_of (ev : event) : list device :=
  match ev with
  | model_to _ d => [d]
  | inv_weights_to t => [weights_on t]
  | new_Learner l | fit_one_cycle l _ _ _ =>
      [dls_device (lrn_dls l); weights_on (loss_weight (lrn_loss_func l))]
  | _ => []
  end.

Definition models_of (ev : event) : list model :=
  match ev with
  | model_to m _ | torch_save m _ | validate m _ | validate_binarized m _ =>
      [m]
  | new_Learner l | fit_one_cycle l _ _ _ => [lrn_model l]
  | _ => []
  end.

(** The datasets a call is handed, directly or inside a loader. *)
Definition datasets_of (ev : event) : list dataset :=
  match ev with
  | HistoCRCDataset ds | describe ds => [ds]
  | new_DataLoader dl | validate _ dl | validate_binarized _ dl =>
      [dl_dataset dl]
  | inv_weights_to t => [weights_of t]
  | new_Learner l | fit_one_cycle l _ _ _ =>
      [dl_dataset (dls_train (lrn_dls l)); dl_dataset (dls_valid (lrn_dls l));
       weights_of (loss_weight (lrn_loss_func l))]
  | _ => []
  end.

#[global] Arguments get_run_name : simpl never.
#[global] Arguments Path : simpl never.
#[global] Arguments join : simpl never.
#[global] Arguments run_directory : simpl never.

(** ** Further descriptions of a run *)

(** The learner [train] builds and fits, and the configuration object it
    saves. *)
Definition fitted_learner (E : env) (backbone train_dir valid_dir
    save_dir : string) (batch_size : Z) (binary : bool) : learner :=
  let device :=
    TorchDevice (if cuda_is_available E then "cuda" else "cpu") in
  let image_processor := pretrained_processor E backbone in
  let img_size :=
    (size_height image_processor, size_width image_processor) in
  let mean := image_mean image_processor in
  let std := image_std image_processor in
  let train_ds :=
    mk_dataset train_dir (mk_augmentation img_size mean std None) binary
      (reported_n_classes E train_dir binary) in
  let train_dl :=
    DataLoader train_ds batch_size true (cpu_count E) true (Some true) in
  let valid_dl := validation_loader E backbone valid_dir batch_size binary in
  Learner (DataLoaders train_dl valid_dl device)
    (loaded_model E backbone train_dir binary)
    (CrossEntropyLoss (InvWeights train_ds device) 0)
    (Float 1 (-4)) (Float 1 (-6))
    [ AccumMetric_accuracy false; Precision "macro"; Recall "macro";
      F1Score "macro";
      if binary then RocAucBinary "macro" else RocAuc "macro" ]
    (run_directory E save_dir backbone binary).

Definition saved_config (E : env) (backbone train_dir : string)
    (binary : bool) : config :=
  mk_config backbone (reported_n_classes E train_dir binary).

Definition augmentations_built (tr : list event) : list augmentation :=
  omap (fun ev => match ev with
                  | get_augmentation a => Some a
                  | _ => None
                  end) tr.

Definition processors_loaded (tr : list event) : list string :=
  omap (fun ev => match ev with
                  | from_pretrained b => Some b
                  | _ => None
                  end) tr.

(** An environment in which fitting fails, as when the accelerator runs
    out of memory. *)
Definition failing_env : env :=
  {| now := now (sample_env true);
     cuda_is_available := true;
     cpu_count := cpu_count (sample_env true);
     pretrained_processor := pretrained_processor (sample_env true);
     reported_n_classes := reported_n_classes (sample_env true);
     head_repr := head_repr (sample_env true);
     trainable_parameters := trainable_parameters (sample_env true);
     history_csv := history_csv (sample_env true);
     config_json := config_json (sample_env true);
     state_dict := state_dict (sample_env true);
     validate_report := validate_report (sample_env true);
     validate_binarized_report := validate_binarized_report (sample_env true);
     raises := fun ev =>
       match ev with
       | fit_one_cycle _ _ _ _ => Some (Raised "OutOfMemoryError")
       | _ => None
       end |}.

(** ** Ordering run names *)

(** The ranges [datetime] enforces on its fields. *)
Definition valid_datetime (t : datetime) : Prop :=
  (1 <= year t <= 9999 /\ 1 <= month t <= 12 /\ 1 <= day t <= 31 /\
   hour t < 24 /\ minute t < 60 /\ second t < 60 /\
   microsecond t < 1000000)%N.

(** The order of two clock readings, field by field. *)
Fixpoint lex_compare (l1 l2 : list N) : comparison :=
  match l1, l2 with
  | [], [] => Eq
  | [], _ :: _ => Lt
  | _ :: _, [] => Gt
  | x :: l1', y :: l2' =>
      match N.compare x y with
      | Eq => lex_compare l1' l2'
      | c => c
      end
  end.

(** [i; i+1; ...], [fuel] numbers. *)
Fixpoint upto (fuel : nat) (i : N) : list N :=
  match fuel with
  | O => []
  | S k => i :: upto k (N.succ i)
  end.

(** Every number below [bound] prints in [w] characters under [%0wd],
    and before its successor in the order of strings. *)
Definition fixed_width_check (w : nat) (bound : N) : bool :=
  forallb
    (fun i =>
       Nat.eqb (String.length (PyStr.format_0d w i)) w &&
       (if (N.succ i <? bound)%N
        then match String.compare (PyStr.format_0d w i)
                     (PyStr.format_0d w (N.succ i)) with
             | Lt => true
             | _ => false
             end
        else true))
    (upto (N.to_nat bound) 0).

(** ** The script *)

(** The [__main__] block: the paths it joins, written out, and its call
    [train(backbone, train_dir, valid_dir, save_dir, binary=True,
    batch_size=32)]. *)
Definition main_data_dir : string :=
  "/home/aaron/Documents/Studium/Informatik/7_Semester/EKFZ/NewEPOC/data/".

Definition main_save_dir : string :=
  "/home/aaron/Documents/Studium/Informatik/7_Semester/EKFZ/NewEPOC/models/".

Definition main (E : env) : M model :=
  let backbone := main_backbone in
  let train_dir := main_data_dir +:+ "NCT-CRC-HE-100K" in
  let valid_dir := main_data_dir +:+ "CRC-VAL-HE-7K" in
  let save_dir := main_save_dir in
  train E backbone train_dir valid_dir save_dir 32 true.

Definition validations (tr : list event) : list (model * data_loader) :=
  omap (fun ev => match ev with
                  | validate m dl => Some (m, dl)
                  | _ => None
                  end) tr.

(** Where the run of [sample_env] lies on the disk. *)
Definition stale_run : list string :=
  ["home"; "user"; "models";
   get_run_name (now (sample_env true)) main_backbone false].

(** A disk on which a regular file has the name of the run of
    [sample_env], and one on which [models] is a regular file. *)
Definition taken_world : world :=
  {| w_fs :=
       {| nodes := <[stale_run := File "notes"]>
                     (<[["home"; "user"; "models"] := Dir]> ∅);
          cwd := ["home"; "user"] |};
     w_trace := [] |}.

Definition file_world : world :=
  {| w_fs :=
       {| nodes := <[["home"; "user"; "models"] := File "notes"]> ∅;
          cwd := ["home"; "user"] |};
     w_trace := [] |}.


(** A backbone whose name is longer than a directory entry may be. *)
Definition long_backbone : string := "org/" +:+ str_repeat 300 "a".

(** * Facts about strings *)

Section StringFacts.

Lemma app_cons a s t : String a s +:+ t = String a (s +:+ t).
Proof. reflexivity. Qed.

Lemma app_empty_l s : EmptyString +:+ s = s.
Proof. reflexivity. Qed.

Lemma app_assoc_str s t u : (s +:+ t) +:+ u = s +:+ (t +:+ u).
Proof.
  induction s as [|a s IH]; [reflexivity|].
  rewrite !app_cons. now rewrite IH.
Qed.

Lemma app_length_str s t :
  String.length (s +:+ t) = (String.length s + String.length t)%nat.
Proof.
  induction s as [|a s IH]; [reflexivity|].
  rewrite app_cons. simpl. now rewrite IH.
Qed.

Lemma contains_app c s t :
  PyStr.contains c (s +:+ t) = PyStr.contains c s || PyStr.contains c t.
Proof.
  induction s as [|a s IH]; [reflexivity|].
  rewrite app_cons. simpl. destruct (Ascii.eqb a c); auto.
Qed.

Lemma prefix_char_cons c a s :
  String.prefix (String c EmptyString) (String a s) = Ascii.eqb a c.
Proof.
  simpl. destruct (ascii_dec c a) as [->|Hne].
  - rewrite Ascii.eqb_refl. now destruct s.
  - symmetry. apply Ascii.eqb_neq. congruence.
Qed.

Lemma find_at_absent c s i :
  PyStr.contains c s = false -> PyStr.find_at (String c EmptyString) s i = -1.
Proof.
  revert i. induction s as [|a s IH]; intros i H; [reflexivity|].
  simpl in H. unfold PyStr.find_at; fold PyStr.find_at.
  rewrite prefix_char_cons.
  destruct (Ascii.eqb a c); [discriminate|]. now apply IH.
Qed.

Lemma find_at_first c pre post i :
  PyStr.contains c pre = false ->
  PyStr.find_at (String c EmptyString) (pre +:+ String c post) i
  = i + Z.of_nat (String.length pre).
Proof.
  revert i. induction pre as [|a pre IH]; intros i H.
  - rewrite app_empty_l. unfold PyStr.find_at; fold PyStr.find_at.
    rewrite prefix_char_cons, Ascii.eqb_refl. simpl. lia.
  - simpl in H. rewrite app_cons.
    unfold PyStr.find_at; fold PyStr.find_at.
    rewrite prefix_char_cons.
    destruct (Ascii.eqb a c); [discriminate|].
    rewrite IH by assumption. simpl String.length. lia.
Qed.

Lemma drop_app pre s : PyStr.drop (String.length pre) (pre +:+ s) = s.
Proof. induction pre as [|a pre IH]; [now destruct s|]. now rewrite app_cons. Qed.

(** Cutting a string at the first occurrence of a character. *)
Lemma partition_first c pre post :
  PyStr.contains c pre = false ->
  PyStr.partition c (pre +:+ String c post) = Some (pre, post).
Proof.
  induction pre as [|a pre IH]; intros H.
  - rewrite app_empty_l. simpl. now rewrite Ascii.eqb_refl.
  - simpl in H. rewrite app_cons. simpl.
    destruct (Ascii.eqb a c); [discriminate|]. now rewrite IH.
Qed.

Lemma partition_Some c s :
  PyStr.contains c s = true ->
  exists pre post, s = pre +:+ String c post /\
    PyStr.contains c pre = false /\ PyStr.partition c s = Some (pre, post).
Proof.
  induction s as [|a s IH]; intros H; [discriminate|].
  simpl in H. simpl. destruct (Ascii.eqb_spec a c) as [->|Hne].
  - exists EmptyString, s. now rewrite app_empty_l.
  - destruct (IH H) as (pre & post & -> & Hpre & ->).
    exists (String a pre), post. rewrite app_cons. simpl.
    apply Ascii.eqb_neq in Hne. now rewrite Hne.
Qed.

Lemma rpartition_absent c s :
  PyStr.contains c s = false -> PyStr.rpartition c s = None.
Proof.
  induction s as [|a s IH]; intros H; [reflexivity|].
  simpl in *. destruct (Ascii.eqb a c); [discriminate|]. now rewrite IH.
Qed.

(** Cutting a string at the last occurrence of a character. *)
Lemma rpartition_last c l r :
  PyStr.contains c r = false ->
  PyStr.rpartition c (l +:+ String c r) = Some (l, r).
Proof.
  intros H. induction l as [|a l IH].
  - rewrite app_empty_l. simpl.
    now rewrite (rpartition_absent _ _ H), Ascii.eqb_refl.
  - rewrite app_cons. simpl. now rewrite IH.
Qed.

Lemma strip_prefix_app p s : PyStr.strip_prefix p (p +:+ s) = Some s.
Proof.
  induction p as [|a p IH]; [now destruct s|].
  rewrite app_cons. simpl. now rewrite Ascii.eqb_refl.
Qed.

End StringFacts.

(** ** Decimal digits *)

Section DigitFacts.

Lemma all_digits_app s t :
  all_digits (s +:+ t) = all_digits s && all_digits t.
Proof.
  induction s as [|a s IH]; [reflexivity|].
  rewrite app_cons. simpl. rewrite IH. now destruct (is_digit a).
Qed.

Lemma all_digits_zeros k : all_digits (PyStr.zeros k) = true.
Proof. induction k; simpl; auto. Qed.

Lemma all_digits_uint d : all_digits (NilEmpty.string_of_uint d) = true.
Proof. induction d; simpl; auto. Qed.

Lemma all_digits_format w n : all_digits (PyStr.format_0d w n) = true.
Proof.
  unfold PyStr.format_0d, PyStr.str_of_N.
  now rewrite all_digits_app, all_digits_zeros, all_digits_uint.
Qed.

Lemma all_digits_contains c s :
  is_digit c = false -> all_digits s = true -> PyStr.contains c s = false.
Proof.
  intros Hc. induction s as [|a s IH]; intros H; [reflexivity|].
  simpl in *. apply andb_true_iff in H as [Ha Hs].
  destruct (Ascii.eqb_spec a c) as [->|_]; [congruence|auto].
Qed.

Lemma digits_value_zeros k s :
  digits_value (PyStr.zeros k +:+ s) = digits_value s.
Proof.
  induction k as [|k IH]; [reflexivity|].
  simpl PyStr.zeros. rewrite app_cons. rewrite <- IH.
  unfold digits_value. simpl.
  now destruct (NilEmpty.uint_of_string (PyStr.zeros k +:+ s)).
Qed.

(** Reading a formatted number back gives the number. *)
Lemma digits_value_format w n : digits_value (PyStr.format_0d w n) = Some n.
Proof.
  unfold PyStr.format_0d, PyStr.str_of_N. rewrite digits_value_zeros.
  unfold digits_value. rewrite NilEmpty.usu. simpl.
  now rewrite DecimalN.Unsigned.of_to.
Qed.

Lemma format_0d_inj w n n' :
  PyStr.format_0d w n = PyStr.format_0d w n' -> n = n'.
Proof.
  intros H. apply (f_equal digits_value) in H.
  rewrite !digits_value_format in H. congruence.
Qed.

(** Two texts that open with digits and continue with a non-digit agree
    piece by piece. *)
Lemma digits_then_sep_inj s s' c c' r r' :
  all_digits s = true -> all_digits s' = true ->
  is_digit c = false -> is_digit c' = false ->
  s +:+ String c r = s' +:+ String c' r' ->
  s = s' /\ r = r'.
Proof.
  intros Hs Hs' Hc Hc'. revert s' Hs'.
  induction s as [|a s IH]; intros [|a' s'] Hs' Heq;
    rewrite ?app_cons, ?app_empty_l in Heq; simpl in *.
  - now injection Heq as _ ->.
  - injection Heq as -> _. apply andb_true_iff in Hs' as [? _]. congruence.
  - injection Heq as -> _. apply andb_true_iff in Hs as [? _]. congruence.
  - injection Heq as -> Heq.
    apply andb_true_iff in Hs as [_ Hs].
    apply andb_true_iff in Hs' as [_ Hs'].
    destruct (IH Hs s' Hs' Heq) as [-> ->]. auto.
Qed.

End DigitFacts.

(** * The run name *)

Section RunName.

Lemma isoformat_no_underscore t :
  PyStr.contains "_" (isoformat_milliseconds t) = false.
Proof.
  unfold isoformat_milliseconds.
  rewrite !contains_app.
  rewrite !(all_digits_contains "_" (PyStr.format_0d _ _))
    by (reflexivity || apply all_digits_format).
  reflexivity.
Qed.

Lemma isoformat_inj t t' :
  isoformat_milliseconds t = isoformat_milliseconds t' ->
  millis_stamp t = millis_stamp t'.
Proof.
  unfold isoformat_milliseconds, millis_stamp. intros H.
  repeat
    (apply digits_then_sep_inj in H as [?%format_0d_inj H];
     [| apply all_digits_format | apply all_digits_format
      | reflexivity | reflexivity ]).
  apply format_0d_inj in H. congruence.
Qed.

Lemma backbone_name_first pre post :
  PyStr.contains "/" pre = false ->
  backbone_name (pre +:+ String "/" post) = post.
Proof.
  intros H. unfold backbone_name, PyStr.find.
  rewrite (find_at_first "/" pre post 0 H).
  unfold PyStr.slice_from. rewrite app_length_str. simpl String.length.
  destruct (Z.ltb_spec (0 + Z.of_nat (String.length pre) + 1) 0); [lia|].
  replace (Z.to_nat _) with (String.length (pre +:+ "/")).
  - change (String "/" post) with ("/" +:+ post).
    rewrite <- app_assoc_str. apply drop_app.
  - rewrite app_length_str. simpl. lia.
Qed.

Lemma backbone_name_absent s :
  PyStr.contains "/" s = false -> backbone_name s = s.
Proof.
  intros H. unfold backbone_name, PyStr.find.
  rewrite (find_at_absent "/" s 0 H). unfold PyStr.slice_from.
  simpl Z.ltb. cbv iota. rewrite Z.min_l by lia. reflexivity.
Qed.

(** For a fixed backbone and flag, equal run names come from equal clock
    readings at millisecond resolution. *)
Lemma get_run_name_inj t1 t2 backbone is_binary :
  get_run_name t1 backbone is_binary = get_run_name t2 backbone is_binary ->
  millis_stamp t1 = millis_stamp t2.
Proof.
  unfold get_run_name. intros Heq. apply isoformat_inj.
  repeat apply String.app_inj in Heq. exact Heq.
Qed.

(** Two readings of the clock at least a millisecond apart in the day
    differ at millisecond resolution. *)
Lemma stamps_differ_when_apart t1 t2 :
  (micros_of_day t1 + 1000 <= micros_of_day t2)%N ->
  millis_stamp t1 <> millis_stamp t2.
Proof.
  unfold micros_of_day, millis_stamp. intros Hle [= _ _ _ Hh Hm Hs Hms].
  pose proof (N.div_mod' (microsecond t1) 1000) as E1.
  pose proof (N.div_mod' (microsecond t2) 1000) as E2.
  pose proof (N.mod_lt (microsecond t1) 1000 ltac:(discriminate)) as L1.
  pose proof (N.mod_lt (microsecond t2) 1000 ltac:(discriminate)) as L2.
  rewrite Hms in E1. rewrite Hh, Hm, Hs in Hle. clear Hms.
  revert E1 E2 L1 L2.
  generalize (microsecond t1 mod 1000)%N (microsecond t2 mod 1000)%N
             (microsecond t2 / 1000)%N.
  intros. lia.
Qed.

(** X17: for a fixed backbone and flag, two calls whose clock readings
    lie at least a millisecond apart in the day return distinct run
    names. *)
Lemma names_differ_when_apart t1 t2 backbone is_binary :
  (micros_of_day t1 + 1000 <= micros_of_day t2)%N ->
  get_run_name t1 backbone is_binary <> get_run_name t2 backbone is_binary.
Proof.
  intros Hle Heq. apply (stamps_differ_when_apart t1 t2 Hle).
  now apply (get_run_name_inj t1 t2 backbone is_binary).
Qed.

(** With exactly one ['/'], the first is the last. *)
Lemma single_slash_first_is_last pre post :
  PyStr.contains "/" pre = false -> PyStr.contains "/" post = false ->
  after_first_slash (pre +:+ String "/" post)
  = after_last_slash (pre +:+ String "/" post).
Proof.
  intros Hpre Hpost. unfold after_first_slash, after_last_slash.
  now rewrite partition_first, rpartition_last.
Qed.

(** A run name reads back as the three pieces it was built from. *)
Lemma parse_get_run_name now backbone is_binary :
  parse_run_name (get_run_name now backbone is_binary)
  = Some {| seg_backbone := backbone_name backbone;
            seg_binary := PyStr.str_of_bool is_binary;
            seg_time := isoformat_milliseconds now |}.
Proof.
  unfold get_run_name, parse_run_name.
  set (bn := backbone_name backbone).
  set (flag := PyStr.str_of_bool is_binary).
  set (time := isoformat_milliseconds now).
  replace (bn +:+ "_binary=" +:+ flag +:+ "_" +:+ time)
    with ((bn +:+ "_binary=" +:+ flag) +:+ String "_" time)
    by (now rewrite !app_assoc_str).
  rewrite rpartition_last by apply isoformat_no_underscore.
  change (bn +:+ "_binary=" +:+ flag)
    with (bn +:+ String "_" ("binary=" +:+ flag)).
  rewrite rpartition_last by (now destruct is_binary).
  now rewrite strip_prefix_app.
Qed.

End RunName.

(** ** The definitions at work *)

Example find_examples :
  PyStr.find "google/efficientnet-b0" "/" = 6 /\
  PyStr.find "resnet50" "/" = -1 /\
  PyStr.find "a/b/c" "/" = 1 /\
  PyStr.find EmptyString EmptyString = 0.
Proof. repeat split. Qed.

Example slice_examples :
  PyStr.slice_from "abcdef" 2 = "cdef" /\
  PyStr.slice_from "abcdef" (-2) = "ef" /\
  PyStr.slice_from "abcdef" 9 = EmptyString /\
  PyStr.slice_from "abcdef" (-9) = "abcdef".
Proof. repeat split. Qed.

Example isoformat_example :
  isoformat_milliseconds (mk_datetime 2024 3 7 9 5 2 41999)
  = "2024-03-07T09:05:02.041".
Proof. reflexivity. Qed.

Example main_run_name :
  get_run_name (mk_datetime 2024 3 7 9 5 2 41999) main_backbone true
  = "swinv2-tiny-patch4-window8-256_binary=True_2024-03-07T09:05:02.041".
Proof. reflexivity. Qed.

Example path_examples :
  Path "models/" = mk_path false ["models"] /\
  Path "/a//b/./c/../d" = mk_path true ["a"; "b"; "c"; ".."; "d"] /\
  Path EmptyString = mk_path false [] /\
  Path "models/" // Path "x/y" = mk_path false ["models"; "x"; "y"] /\
  Path "models/" // Path "/x" = mk_path true ["x"] /\
  parent (Path "a/b") = Path "a" /\
  parent (Path "/") = Path "/".
Proof. repeat split. Qed.

(** ** What [get_run_name] guarantees *)

(** C1, as the code has it: for every backbone string containing a ['/'],
    the backbone segment of the run name is the substring of the backbone
    after the FIRST ['/']. *)
Theorem run_name_backbone_after_first_slash now backbone is_binary :
  PyStr.contains "/" backbone = true ->
  seg_backbone <$> parse_run_name (get_run_name now backbone is_binary)
  = after_first_slash backbone.
Proof.
  intros H. rewrite parse_get_run_name. simpl.
  destruct (partition_Some _ _ H) as (pre & post & -> & Hpre & Hpart).
  unfold after_first_slash. rewrite Hpart. simpl.
  now rewrite backbone_name_first.
Qed.

Lemma run_name_backbone_after_first_slash_witness :
  PyStr.contains "/" main_backbone = true /\
  seg_backbone <$> parse_run_name
    (get_run_name (mk_datetime 2024 3 7 9 5 2 41999) main_backbone true)
  = after_first_slash main_backbone.
Proof.
  split; [reflexivity|].
  apply (run_name_backbone_after_first_slash
           (mk_datetime 2024 3 7 9 5 2 41999) main_backbone true).
  reflexivity.
Defined.

(** C1, as stated, fails: a backbone given as a local checkpoint path
    contains ['/'], the substring after its last ['/'] is ["tiny"], and
    the backbone segment of the run name is ["swin/tiny"]. *)
Lemma run_name_backbone_not_after_last_slash :
  let backbone := "checkpoints/swin/tiny" in
  let run_name := get_run_name (mk_datetime 2024 3 7 9 5 2 41999) backbone false in
  PyStr.contains "/" backbone = true /\
  after_last_slash backbone = Some "tiny" /\
  seg_backbone <$> parse_run_name run_name = Some "swin/tiny" /\
  seg_backbone <$> parse_run_name run_name <> after_last_slash backbone.
Proof. vm_compute. repeat split; congruence. Qed.

(** C2: for a fixed backbone and binary flag, two calls whose clock
    readings differ at millisecond resolution return distinct run names. *)
Theorem run_names_distinct t1 t2 backbone is_binary :
  millis_stamp t1 <> millis_stamp t2 ->
  get_run_name t1 backbone is_binary <> get_run_name t2 backbone is_binary.
Proof.
  intros Hne Heq. apply Hne.
  now apply (get_run_name_inj t1 t2 backbone is_binary).
Qed.

Lemma run_names_distinct_witness :
  millis_stamp (mk_datetime 2024 3 7 9 5 2 41999)
  <> millis_stamp (mk_datetime 2024 3 7 9 5 2 42000) /\
  get_run_name (mk_datetime 2024 3 7 9 5 2 41999) main_backbone true
  <> get_run_name (mk_datetime 2024 3 7 9 5 2 42000) main_backbone true.
Proof.
  split; [vm_compute; discriminate|].
  apply (run_names_distinct (mk_datetime 2024 3 7 9 5 2 41999)
           (mk_datetime 2024 3 7 9 5 2 42000) main_backbone true).
  vm_compute. discriminate.
Defined.

(** C3: for every backbone and flag, the run name has a [binary=] segment
    whose text is the string form of the flag, ["True"] or ["False"]. *)
Theorem run_name_binary_segment now backbone (is_binary : bool) :
  seg_binary <$> parse_run_name (get_run_name now backbone is_binary)
  = Some (if is_binary then "True" else "False").
Proof. now rewrite parse_get_run_name. Qed.

(** C10: for every backbone string with no ['/'], [find] gives [-1], the
    slice starts at index [0], and the backbone segment of the run name is
    the whole backbone string. *)
Theorem run_name_backbone_without_slash now backbone is_binary :
  PyStr.contains "/" backbone = false ->
  PyStr.find backbone "/" + 1 = 0 /\
  seg_backbone <$> parse_run_name (get_run_name now backbone is_binary)
  = Some backbone.
Proof.
  intros H. split.
  - unfold PyStr.find. now rewrite find_at_absent.
  - rewrite parse_get_run_name. simpl. now rewrite backbone_name_absent.
Qed.

Lemma run_name_backbone_without_slash_witness :
  PyStr.contains "/" "resnet50" = false /\
  PyStr.find "resnet50" "/" + 1 = 0 /\
  seg_backbone <$> parse_run_name
    (get_run_name (mk_datetime 2024 3 7 9 5 2 41999) "resnet50" false)
  = Some "resnet50".
Proof.
  split; [reflexivity|].
  apply (run_name_backbone_without_slash
           (mk_datetime 2024 3 7 9 5 2 41999) "resnet50" false).
  reflexivity.
Defined.

(** * Facts about the file system *)

Section PathFacts.

Context {A : Type}.
Implicit Types (l i : list A) (x : A).

Lemma unsnoc_snoc l x : unsnoc (l ++ [x]) = Some (l, x).
Proof.
  induction l as [|y l IH]; [reflexivity|].
  simpl. now rewrite IH.
Qed.

Lemma unsnoc_None l : unsnoc l = None -> l = [].
Proof.
  destruct l as [|y l]; [reflexivity|].
  simpl. now destruct (unsnoc l) as [[? ?]|].
Qed.

Lemma unsnoc_Some l i x : unsnoc l = Some (i, x) -> l = i ++ [x].
Proof.
  revert i. induction l as [|y l IH]; intros i H; [discriminate|].
  simpl in H. destruct (unsnoc l) as [[j z]|] eqn:Hl.
  - injection H as <- <-. simpl. f_equal. now apply IH.
  - injection H as <- <-. now rewrite (unsnoc_None _ Hl).
Qed.

End PathFacts.

Section FSFacts.

Implicit Types (f : filesystem) (p : path) (k d cur : list string).

Lemma snoc_not_nil {A} (l : list A) x : l ++ [x] <> [].
Proof. now destruct l. Qed.

Lemma node_at_set_node_eq k n f :
  k <> [] -> node_at (set_node k n f) k = Some n.
Proof.
  intros Hk. destruct k; [congruence|]. simpl. apply lookup_insert_eq.
Qed.

Lemma node_at_set_node_ne k k' n f :
  k <> k' -> node_at (set_node k n f) k' = node_at f k'.
Proof.
  intros Hk. destruct k'; [reflexivity|]. simpl. now apply lookup_insert_ne.
Qed.

Lemma dirs_le_refl f : dirs_le f f.
Proof. now split. Qed.

Lemma dirs_le_trans f1 f2 f3 : dirs_le f1 f2 -> dirs_le f2 f3 -> dirs_le f1 f3.
Proof. intros [? H12] [? H23]. split; [congruence|auto]. Qed.

Lemma dirs_le_set_node k f : dirs_le f (set_node k Dir f).
Proof.
  split; [reflexivity|]. intros k' Hk'.
  destruct (decide (k = k')) as [<-|Hne].
  - destruct k; [reflexivity|]. simpl. apply lookup_insert_eq.
  - now rewrite node_at_set_node_ne.
Qed.

Lemma start_le f f' p : dirs_le f f' -> start f p = start f' p.
Proof. intros [Hc _]. unfold start. now rewrite Hc. Qed.

Lemma walk_app f cur c1 c2 :
  walk f cur (c1 ++ c2)
  = match walk f cur c1 with
    | inl e => inl e
    | inr d => walk f d c2
    end.
Proof.
  revert cur. induction c1 as [|c c1 IH]; intros cur; [reflexivity|].
  simpl. destruct (String.eqb c ".."); [apply IH|].
  destruct (node_at f (cur ++ [c])) as [[|?]|]; auto.
Qed.

(** A walk that succeeds keeps succeeding when directories are added. *)
Lemma walk_mono f f' cur comps d :
  dirs_le f f' -> walk f cur comps = inr d -> walk f' cur comps = inr d.
Proof.
  intros [_ Hle]. revert cur.
  induction comps as [|c comps IH]; intros cur H; [assumption|].
  simpl in *. destruct (String.eqb c ".."); [now apply IH|].
  destruct (node_at f (cur ++ [c])) as [[|?]|] eqn:Hn; try discriminate.
  rewrite (Hle _ Hn). now apply IH.
Qed.



Lemma os_mkdir_inr p f f' :
  os_mkdir p f = inr f' -> dirs_le f f' /\ is_dir f' p = true.
Proof.
  unfold os_mkdir.
  destruct (unsnoc (parts p)) as [[init name]|] eqn:Hp; [|discriminate].
  apply unsnoc_Some in Hp.
  destruct (walk f (start f p) init) as [|d] eqn:Hw; [discriminate|].
  destruct (String.eqb name "..") eqn:Hdd; [discriminate|].
  destruct (node_at f (d ++ [name])) eqn:Hn; [discriminate|].
  destruct (fits name); [|discriminate].
  intros [= <-]. pose proof (dirs_le_set_node (d ++ [name]) f) as Hle.
  split; [assumption|].
  unfold is_dir. rewrite <- (start_le _ _ p Hle), Hp, walk_app.
  rewrite (walk_mono _ _ _ _ _ Hle Hw). simpl. rewrite Hdd.
  now rewrite node_at_set_node_eq by apply snoc_not_nil.
Qed.

(** [os.mkdir] on a directory that is there: [FileExistsError]. *)
Lemma os_mkdir_is_dir p f : is_dir f p = true -> os_mkdir p f = inl EEXIST.
Proof.
  unfold is_dir, os_mkdir.
  destruct (unsnoc (parts p)) as [[init name]|] eqn:Hp; [|reflexivity].
  apply unsnoc_Some in Hp. rewrite Hp, walk_app.
  destruct (walk f (start f p) init) as [|d]; [discriminate|].
  simpl. destruct (String.eqb name ".."); [reflexivity|].
  now destruct (node_at f (d ++ [name])) as [[|?]|].
Qed.

Lemma except_OSError_inr p (ok : bool) e f f' u :
  (if negb ok || negb (is_dir f p)
   then (inl (OSError e), f) else (inr tt, f)) = (inr u, f') ->
  dirs_le f f' /\ is_dir f' p = true.
Proof.
  destruct ok; simpl; [|discriminate].
  destruct (is_dir f p) eqn:Hd; simpl; [|discriminate].
  intros [= _ <-]. split; [apply dirs_le_refl | assumption].
Qed.

Lemma mkdir_flat_inr p ok f f' u :
  mkdir_flat p ok f = (inr u, f') -> dirs_le f f' /\ is_dir f' p = true.
Proof.
  unfold mkdir_flat. destruct (os_mkdir p f) as [e|f1] eqn:Hos.
  - destruct e; try discriminate; apply except_OSError_inr.
  - intros [= _ <-]. now apply os_mkdir_inr.
Qed.

Lemma mkdir_rev_inr a rparts parents ok f f' u :
  mkdir_rev a rparts parents ok f = (inr u, f') ->
  dirs_le f f' /\ is_dir f' (mk_path a (rev rparts)) = true.
Proof.
  revert parents ok f f' u.
  induction rparts as [|c rparent IH]; intros parents ok f f' u.
  - unfold mkdir_rev.
    destruct (os_mkdir _ f) as [e|f1] eqn:Hos.
    + destruct e; try discriminate; apply except_OSError_inr.
    + intros [= _ <-]. now apply os_mkdir_inr.
  - unfold mkdir_rev; fold mkdir_rev.
    destruct (os_mkdir _ f) as [e|f1] eqn:Hos.
    + destruct e; try apply except_OSError_inr.
      destruct parents; simpl; [|discriminate].
      destruct (mkdir_rev a rparent true true f) as [[e|u1] f1] eqn:Hrec;
        [discriminate|].
      intros Hflat. apply IH in Hrec as [Hle1 _].
      apply mkdir_flat_inr in Hflat as [Hle2 Hd].
      split; [eapply dirs_le_trans; eassumption | assumption].
    + intros [= _ <-]. now apply os_mkdir_inr.
Qed.

Lemma mkdir_rev_existing a rparts parents f :
  is_dir f (mk_path a (rev rparts)) = true ->
  mkdir_rev a rparts parents true f = (inr tt, f).
Proof.
  intros Hd. pose proof (os_mkdir_is_dir _ _ Hd) as Hos.
  destruct rparts; unfold mkdir_rev; fold mkdir_rev; cbv zeta;
    now rewrite Hos, Hd.
Qed.

(** The recursion of [mkdir_rev] is the one on [self.parent]. *)
Lemma parent_rev (a : bool) c rparent :
  parent (mk_path a (rev (c :: rparent))) = mk_path a (rev rparent).
Proof. unfold parent. simpl. now rewrite unsnoc_snoc. Qed.

Lemma parent_root (a : bool) : parent (mk_path a []) = mk_path a [].
Proof. reflexivity. Qed.

Lemma path_eta p : mk_path (anchored p) (rev (rev (parts p))) = p.
Proof. destruct p. simpl. now rewrite rev_involutive. Qed.

(** A [mkdir] that returns leaves a directory behind and removes
    nothing. *)
Lemma mkdir_inr p parents ok f f' u :
  FS.mkdir p parents ok f = (inr u, f') ->
  dirs_le f f' /\ is_dir f' p = true.
Proof.
  unfold FS.mkdir. intros H. apply mkdir_rev_inr in H.
  now rewrite path_eta in H.
Qed.

(** With [exist_ok], [mkdir] on a directory that is there returns and
    changes nothing. *)
Lemma mkdir_existing p parents f :
  is_dir f p = true -> FS.mkdir p parents true f = (inr tt, f).
Proof.
  intros H. unfold FS.mkdir. apply mkdir_rev_existing.
  now rewrite path_eta.
Qed.

End FSFacts.

Section Creation.

Implicit Types (f : filesystem) (p : path) (k d cur q r : list string).

Lemma add_dirs_snoc d r x f :
  add_dirs d (r ++ [x]) f = set_node (d ++ r ++ [x]) Dir (add_dirs d r f).
Proof.
  revert d f. induction r as [|y r IH]; intros d f; [reflexivity|].
  simpl. rewrite IH. now rewrite <- app_assoc.
Qed.

Lemma dirs_le_add_dirs d r f : dirs_le f (add_dirs d r f).
Proof.
  revert d f. induction r as [|y r IH]; intros d f; [apply dirs_le_refl|].
  simpl. eapply dirs_le_trans; [apply dirs_le_set_node | apply IH].
Qed.

Lemma cwd_add_dirs d r f : cwd (add_dirs d r f) = cwd f.
Proof. symmetry. apply dirs_le_add_dirs. Qed.

Lemma node_at_add_dirs_long d r f k :
  (length d + length r < length k)%nat ->
  node_at (add_dirs d r f) k = node_at f k.
Proof.
  revert d f. induction r as [|y r IH]; intros d f Hlen; [reflexivity|].
  simpl in *. rewrite IH by (rewrite length_app; simpl; lia).
  apply node_at_set_node_ne. intros <-.
  rewrite length_app in Hlen. simpl in Hlen. lia.
Qed.

Lemma walk_plain_dirs f d r :
  Forall plain r -> walk (add_dirs d r f) d r = inr (d ++ r).
Proof.
  intros Hr. revert d f. induction Hr as [|x r Hx Hr IH]; intros d f.
  - simpl. now rewrite app_nil_r.
  - simpl. rewrite Hx.
    destruct (dirs_le_add_dirs (d ++ [x]) r (set_node (d ++ [x]) Dir f))
      as [_ Hle].
    rewrite (Hle (d ++ [x]))
      by (apply node_at_set_node_eq, snoc_not_nil).
    rewrite IH. now rewrite <- app_assoc.
Qed.

Lemma walk_missing f d x r :
  plain x -> node_at f (d ++ [x]) = None -> walk f d (x :: r) = inl ENOENT.
Proof. intros Hx Hn. simpl. now rewrite Hx, Hn. Qed.

Lemma os_mkdir_snoc (a : bool) q x f :
  os_mkdir (mk_path a (q ++ [x])) f
  = match walk f (if a then [] else cwd f) q with
    | inl e => inl e
    | inr d =>
        if String.eqb x ".." then inl EEXIST
        else match node_at f (d ++ [x]) with
             | Some _ => inl EEXIST
             | None =>
                 if fits x then inr (set_node (d ++ [x]) Dir f)
                 else inl ENAMETOOLONG
             end
    end.
Proof. unfold os_mkdir, start. simpl. now rewrite unsnoc_snoc. Qed.

(** [mkdir(parents=True, exist_ok=True)] below an existing directory
    [q], when none of the directories [r] to be made is there yet: it
    returns when every new name fits, having made exactly those
    directories, and raises for a name too long otherwise. *)
Lemma mkdir_fresh (a : bool) q r f d :
  walk f (if a then [] else cwd f) q = inr d ->
  Forall plain r ->
  (forall r1 r2, r = r1 ++ r2 -> r1 <> [] -> node_at f (d ++ r1) = None) ->
  (forallb fits r = true ->
   FS.mkdir (mk_path a (q ++ r)) true true f = (inr tt, add_dirs d r f)) /\
  (forallb fits r = false ->
   exists f', FS.mkdir (mk_path a (q ++ r)) true true f
              = (inl (OSError ENAMETOOLONG), f')).
Proof.
  intros Hq. induction r as [|x r IH] using rev_ind; intros Hplain Hfresh.
  - split; [|discriminate]. intros _.
    rewrite app_nil_r. apply mkdir_existing.
    unfold is_dir, start. simpl. now rewrite Hq.
  - apply Forall_app in Hplain as [Hr Hx].
    apply Forall_cons_1 in Hx as [Hx _].
    assert (Hfresh' : forall r1 r2,
               r = r1 ++ r2 -> r1 <> [] -> node_at f (d ++ r1) = None).
    { intros r1 r2 -> Hne. apply (Hfresh r1 (r2 ++ [x]));
        [now rewrite app_assoc | assumption]. }
    specialize (IH Hr Hfresh') as [IH1 IH2].
    rewrite forallb_app. cbn [forallb]. rewrite andb_true_r.
    unfold FS.mkdir in *. simpl in *.
    rewrite app_assoc, rev_unit.
    unfold mkdir_rev; fold mkdir_rev; cbv zeta.
    change (rev (x :: rev (q ++ r))) with (rev (rev (q ++ r)) ++ [x]).
    rewrite rev_involutive, os_mkdir_snoc, walk_app, Hq.
    destruct r as [|y r'].
    + simpl. rewrite Hx.
      rewrite (Hfresh [x] []) by first [reflexivity | discriminate].
      destruct (fits x); split; try discriminate; intros _; [reflexivity|].
      eexists. unfold is_dir, start. cbn [anchored parts].
      rewrite app_nil_r, walk_app, Hq. simpl. rewrite Hx.
      rewrite (Hfresh [x] []) by first [reflexivity | discriminate].
      reflexivity.
    + assert (Hy : plain y) by (now apply Forall_cons_1 in Hr as [? _]).
      rewrite (walk_missing f d y r' Hy)
        by (apply (Hfresh [y] (r' ++ [x])); first [reflexivity | discriminate]).
      simpl negb. cbv iota.
      destruct (forallb fits (y :: r')) eqn:Hfit.
      * rewrite (IH1 eq_refl).
        unfold mkdir_flat. rewrite os_mkdir_snoc, walk_app, cwd_add_dirs.
        rewrite (walk_mono f _ _ _ d (dirs_le_add_dirs d (y :: r') f) Hq).
        rewrite (walk_plain_dirs f d (y :: r') Hr), Hx.
        rewrite node_at_add_dirs_long
          by (rewrite !length_app; simpl; lia).
        rewrite <- app_assoc.
        rewrite (Hfresh ((y :: r') ++ [x]) [])
          by first [now rewrite app_nil_r | apply snoc_not_nil].
        simpl andb.
        destruct (fits x); split; try discriminate; intros _;
          [now rewrite add_dirs_snoc|].
        eexists. unfold is_dir, start. cbn [anchored parts].
        rewrite cwd_add_dirs, !walk_app.
        rewrite (walk_mono f _ _ _ d (dirs_le_add_dirs d (y :: r') f) Hq).
        rewrite (walk_plain_dirs f d (y :: r') Hr). cbn [walk]. rewrite Hx.
        rewrite node_at_add_dirs_long
          by (rewrite !length_app; simpl; lia).
        rewrite <- app_assoc.
        rewrite (Hfresh ((y :: r') ++ [x]) [])
          by first [now rewrite app_nil_r | apply snoc_not_nil].
        reflexivity.
      * destruct (IH2 eq_refl) as [f' ->].
        split; [discriminate|]. intros _. now exists f'.
Qed.

Lemma mkdir_creates (a : bool) q r f d :
  walk f (if a then [] else cwd f) q = inr d ->
  Forall plain r ->
  (forall r1 r2, r = r1 ++ r2 -> r1 <> [] -> node_at f (d ++ r1) = None) ->
  forallb fits r = true ->
  FS.mkdir (mk_path a (q ++ r)) true true f = (inr tt, add_dirs d r f).
Proof. intros Hq Hp Hf. now apply mkdir_fresh. Qed.


End Creation.

Section FileFacts.

Implicit Types (f : filesystem) (p : path) (k h d : list string).

Lemma dirs_le_set_file k c f :
  nodes f !! k <> Some Dir -> dirs_le f (set_node k (File c) f).
Proof.
  intros Hk. split; [reflexivity|]. intros k' Hk'.
  destruct k' as [|x k']; [reflexivity|].
  rewrite node_at_set_node_ne; [assumption|]. intros ->. now apply Hk.
Qed.

Lemma resolves_mono f f' p h :
  dirs_le f f' -> resolves f p h -> resolves f' p h.
Proof.
  intros Hle (init & name & d & Hp & Hw & Hn & ->).
  exists init, name, d. repeat split; try assumption.
  rewrite <- (start_le f f' p Hle). now apply (walk_mono f).
Qed.

Lemma read_text_resolves f p h c :
  resolves f p h -> nodes f !! h = Some (File c) -> read_text f p = Some c.
Proof.
  intros (init & name & d & Hp & Hw & Hn & ->) Hc.
  unfold read_text. rewrite Hp, Hw, Hn.
  unfold node_at. destruct (d ++ [name]) eqn:Hk; [now destruct d|].
  now rewrite Hc.
Qed.

(** [open] that returns: the handle is the entry the path names, a
    regular file afterwards, empty if it was truncated or is new, and with
    its old text otherwise. *)
Lemma open_inr p truncate f h f' :
  FS.open p truncate f = (inr h, f') ->
  resolves f' p h /\ dirs_le f f' /\
  exists c, nodes f' !! h = Some (File c) /\
    (truncate = true -> c = EmptyString) /\
    (truncate = false ->
       nodes f !! h = Some (File c) \/ (nodes f !! h = None /\ c = EmptyString)).
Proof.
  unfold FS.open.
  destruct (unsnoc (parts p)) as [[init name]|] eqn:Hp; [|discriminate].
  destruct (walk f (start f p) init) as [|d] eqn:Hw; [discriminate|].
  destruct (String.eqb name "..") eqn:Hn; [discriminate|].
  assert (Hres : resolves f p (d ++ [name])) by (now exists init, name, d).
  assert (Hk : forall n, node_at f (d ++ [name]) = n ->
                         nodes f !! (d ++ [name]) = n).
  { intros n <-. unfold node_at.
    destruct (d ++ [name]) eqn:Hk; [now destruct d | reflexivity]. }
  destruct (node_at f (d ++ [name])) as [[|c]|] eqn:Hnode; [discriminate| |].
  - intros [= <- <-]. destruct truncate.
    + assert (Hle : dirs_le f (set_node (d ++ [name]) (File EmptyString) f))
        by (apply dirs_le_set_file; rewrite (Hk _ eq_refl); congruence).
      split; [now apply (resolves_mono f)|]. split; [assumption|].
      exists EmptyString. simpl. rewrite lookup_insert_eq. now repeat split.
    + split; [assumption|]. split; [apply dirs_le_refl|].
      exists c. rewrite (Hk _ eq_refl). repeat split; [discriminate|auto].
  - intros [= <- <-].
    assert (Hle : dirs_le f (set_node (d ++ [name]) (File EmptyString) f))
      by (apply dirs_le_set_file; rewrite (Hk _ eq_refl); congruence).
    split; [now apply (resolves_mono f)|]. split; [assumption|].
    exists EmptyString. simpl. rewrite lookup_insert_eq.
    repeat split; auto; intros _; right; now rewrite (Hk _ eq_refl).
Qed.

(** Opening for append a file that is there changes nothing. *)
Lemma open_append_existing f p h c :
  resolves f p h -> nodes f !! h = Some (File c) ->
  FS.open p false f = (inr h, f).
Proof.
  intros (init & name & d & Hp & Hw & Hn & ->) Hc.
  unfold FS.open. rewrite Hp, Hw, Hn.
  unfold node_at. destruct (d ++ [name]) eqn:Hk; [now destruct d|].
  now rewrite Hc.
Qed.

Lemma write_file h s f c :
  nodes f !! h = Some (File c) ->
  nodes (FS.write h s f) !! h = Some (File (c +:+ s)) /\
  dirs_le f (FS.write h s f).
Proof.
  intros Hc. unfold FS.write. rewrite Hc. simpl.
  rewrite lookup_insert_eq. split; [reflexivity|].
  apply dirs_le_set_file. congruence.
Qed.

Lemma write_dirs_le h s f : dirs_le f (FS.write h s f).
Proof.
  destruct (nodes f !! h) as [[|c]|] eqn:Hc;
    [| now apply (write_file h s f c) |];
    unfold FS.write; rewrite Hc; apply dirs_le_refl.
Qed.

End FileFacts.

Section MonadFacts.

Variable E : env.

Lemma bind_inr {A B} (m : M A) (k : A -> M B) w b w' :
  (m ≫= k) w = (inr b, w') ->
  exists a w1, m w = (inr a, w1) /\ k a w1 = (inr b, w').
Proof.
  unfold mbind, M_bind. destruct (m w) as [[e|a] w1]; [discriminate|].
  eauto.
Qed.

Lemma bind_inl_l {A B} (m : M A) (k : A -> M B) w e w' :
  m w = (inl e, w') -> (m ≫= k) w = (inl e, w').
Proof. unfold mbind, M_bind. now intros ->. Qed.

Lemma call_inr ev w u w' :
  call E ev w = (inr u, w') ->
  raises E ev = None /\
  w' = {| w_fs := w_fs w; w_trace := w_trace w ++ [ev] |}.
Proof.
  unfold call. destruct (raises E ev); [discriminate|].
  now intros [= _ <-].
Qed.

Lemma on_fs_inr {A} (op : filesystem -> (exn + A) * filesystem) w a w' :
  on_fs op w = (inr a, w') ->
  exists f', op (w_fs w) = (inr a, f') /\
    w' = {| w_fs := f'; w_trace := w_trace w |}.
Proof.
  unfold on_fs. destruct (op (w_fs w)) as [r f'].
  intros [= -> <-]. eauto.
Qed.

Lemma fwrite_inr h s w u w' :
  fwrite h s w = (inr u, w') ->
  w' = {| w_fs := FS.write h s (w_fs w); w_trace := w_trace w |}.
Proof. unfold fwrite, on_fs. now intros [= _ <-]. Qed.

Lemma library_writes_inr p s w u w' :
  library_writes p s w = (inr u, w') ->
  exists f', dirs_le (w_fs w) f' /\
    w' = {| w_fs := f'; w_trace := w_trace w |}.
Proof.
  unfold library_writes. intros H.
  apply bind_inr in H as (h & w1 & Hop & H).
  apply on_fs_inr in Hop as (f1 & Hop & ->).
  apply fwrite_inr in H as ->. simpl.
  apply open_inr in Hop as (_ & Hle & _).
  eexists. split; [|reflexivity].
  eapply dirs_le_trans; [eassumption | apply write_dirs_le].
Qed.

End MonadFacts.

(** * Runs of [train] that return *)

Ltac peel_call H :=
  let u := fresh "u" in
  let w := fresh "w" in
  let Hc := fresh "Hc" in
  apply bind_inr in H as (u & w & Hc & H);
  apply call_inr in Hc as [_ ->];
  cbn [w_fs w_trace] in H.

Ltac peel_library_writes H Hle :=
  let u := fresh "u" in
  let w := fresh "w" in
  let Hc := fresh "Hc" in
  let f := fresh "f" in
  apply bind_inr in H as (u & w & Hc & H);
  apply library_writes_inr in Hc as (f & Hle & ->);
  cbn [w_fs w_trace] in H, Hle.

(** What a returning run has done: made the save directory, placed the
    calls of [train_calls], written [report.txt], and returned the model
    [load_model] gave it. *)
Lemma train_inr E backbone train_dir valid_dir save_dir batch_size binary
    w m w' :
  train E backbone train_dir valid_dir save_dir batch_size binary w
  = (inr m, w') ->
  exists f1,
    FS.mkdir (run_directory E save_dir backbone binary) true true (w_fs w)
    = (inr tt, f1) /\
    dirs_le f1 (w_fs w') /\
    w_trace w' = w_trace w
      ++ train_calls E backbone train_dir valid_dir save_dir batch_size binary /\
    m = loaded_model E backbone train_dir binary /\
    read_text (w_fs w')
      (run_directory E save_dir backbone binary // Path "report.txt")
    = Some (report_txt E (loaded_model E backbone train_dir binary)
              (validation_loader E backbone valid_dir batch_size binary)
              binary).
Proof.
  unfold train. cbv zeta.
  fold (run_directory E save_dir backbone binary).
  intros H.
  apply bind_inr in H as ([] & w0 & Hmk & H).
  apply on_fs_inr in Hmk as (f1 & Hmk & ->).
  exists f1. split; [exact Hmk|].
  apply bind_inr in H as (ug & wg & Hgpu & H).
  assert (Hwg : wg = {| w_fs := f1;
                        w_trace := w_trace w ++
                          (if cuda_is_available E
                           then [set_float32_matmul_precision "high"]
                           else []) |}).
  { destruct (cuda_is_available E).
    - now apply call_inr in Hgpu as [_ ->].
    - injection Hgpu as _ <-. now rewrite app_nil_r. }
  subst wg. clear Hgpu. cbn [w_fs w_trace] in H.
  do 15 peel_call H.
  peel_library_writes H Hle1.
  peel_call H.
  peel_library_writes H Hle2.
  peel_call H.
  peel_library_writes H Hle3.
  do 2 peel_call H.
  apply bind_inr in H as (h & ? & Hop & H).
  apply on_fs_inr in Hop as (f5 & Hop & ->). cbn [w_fs w_trace] in H, Hop.
  apply open_inr in Hop as (Hres & Hle4 & c & Hc & Hempty & _).
  rewrite (Hempty eq_refl) in Hc. clear Hempty c.
  apply bind_inr in H as (? & ? & Hwr & H).
  apply fwrite_inr in Hwr as ->. cbn [w_fs w_trace] in H.
  match type of H with
  | context [FS.write h ?s f5] =>
      destruct (write_file h s _ _ Hc) as [Hc1 Hle5]
  end.
  rewrite app_empty_l in Hc1.
  pose proof (resolves_mono _ _ _ _ Hle5 Hres) as Hres1.
  pose proof (dirs_le_trans _ _ _ Hle1
                (dirs_le_trans _ _ _ Hle2
                   (dirs_le_trans _ _ _ Hle3
                      (dirs_le_trans _ _ _ Hle4 Hle5)))) as Hle.
  clear Hle1 Hle2 Hle3 Hle4 Hle5 Hres Hc.
  apply bind_inr in H as (? & ? & Hbin & H).
  injection H as <- <-.
  unfold train_calls, report_txt. cbv zeta.
  fold (run_directory E save_dir backbone binary).
  destruct binary; cbn [negb] in Hbin.
  - injection Hbin as _ <-. cbn [w_fs w_trace].
    split; [exact Hle|]. split.
    { rewrite <- !app_assoc. reflexivity. }
    split; [reflexivity|].
    apply (read_text_resolves _ _ h); [exact Hres1 | exact Hc1].
  - do 2 peel_call Hbin.
    apply bind_inr in Hbin as (h' & ? & Hop2 & Hbin).
    apply on_fs_inr in Hop2 as (f6 & Hop2 & ->).
    cbn [w_fs w_trace] in Hbin, Hop2.
    rewrite (open_append_existing _ _ h _ Hres1 Hc1) in Hop2.
    injection Hop2 as <- <-.
    apply bind_inr in Hbin as (? & ? & Hwr2 & Hbin).
    apply fwrite_inr in Hwr2 as ->. cbn [w_fs w_trace] in Hbin.
    apply fwrite_inr in Hbin as ->. cbn [w_fs w_trace].
    destruct (write_file h (str_repeat 5 newline +:+ "Binarized:") _ _ Hc1)
      as [Hc2 Hle6].
    match goal with
    | |- context [FS.write h ?s (FS.write h _ (FS.write h _ f5))] =>
        destruct (write_file h s _ _ Hc2) as [Hc3 Hle7]
    end.
    split.
    { eapply dirs_le_trans; [exact Hle|].
      eapply dirs_le_trans; eassumption. }
    split.
    { rewrite <- !app_assoc. reflexivity. }
    split; [reflexivity|].
    apply (read_text_resolves _ _ h).
    + eapply resolves_mono; [exact Hle7|].
      eapply resolves_mono; [exact Hle6|]. exact Hres1.
    + rewrite !app_assoc_str in Hc3. exact Hc3.
Qed.

Lemma train_calls_during E backbone train_dir valid_dir save_dir batch_size
    binary w m w' :
  train E backbone train_dir valid_dir save_dir batch_size binary w
  = (inr m, w') ->
  calls_during w w'
  = train_calls E backbone train_dir valid_dir save_dir batch_size binary /\
  m = loaded_model E backbone train_dir binary.
Proof.
  intros H. apply train_inr in H as (f1 & _ & _ & Htr & Hm & _).
  split; [|assumption].
  unfold calls_during. rewrite Htr. apply drop_app_length.
Qed.

Lemma returns_eta {A} (r : (exn + A) * world) (a : A) :
  fst r = inr a -> r = (inr a, snd r).
Proof. destruct r as [x w]. simpl. now intros ->. Qed.

(** * What [train] guarantees *)

(** C4: in a run of [train] that returns, [validate_binarized] is called,
    and its report appended to [report.txt] after five newlines and the
    heading, if and only if [binary] is false; when [binary] is true,
    [report.txt] holds the standard validation report and nothing else. *)
Theorem train_report E backbone train_dir valid_dir save_dir batch_size
    binary w m w' :
  train E backbone train_dir valid_dir save_dir batch_size binary w
  = (inr m, w') ->
  let valid_dl := validation_loader E backbone valid_dir batch_size binary in
  let report_file :=
    Path save_dir // Path (get_run_name (now E) backbone binary)
    // Path "report.txt" in
  (validate_binarized m valid_dl ∈ calls_during w w' <-> binary = false) /\
  binarized_validations (calls_during w w')
  = (if binary then [] else [(m, valid_dl)]) /\
  read_text (w_fs w') report_file
  = Some (if binary then validate_report E m valid_dl
          else validate_report E m valid_dl
               +:+ str_repeat 5 newline +:+ "Binarized:"
               +:+ validate_binarized_report E m valid_dl).
Proof.
  intros H. cbv zeta.
  destruct (train_calls_during _ _ _ _ _ _ _ _ _ _ H) as [-> ->].
  apply train_inr in H as (f1 & _ & _ & _ & _ & Hread).
  split; [|split].
  - unfold train_calls. cbv zeta. destruct binary.
    + split; [|discriminate]. intros Hin. exfalso.
      destruct (cuda_is_available E); simpl in Hin;
        repeat (apply elem_of_cons in Hin as [Hin|Hin]; [discriminate|]);
        now apply elem_of_nil in Hin.
    + split; [reflexivity|]. intros _.
      apply elem_of_app. right. apply elem_of_app. right.
      apply elem_of_cons. now left.
  - unfold train_calls. cbv zeta.
    now destruct binary, (cuda_is_available E).
  - unfold run_directory in Hread. rewrite Hread.
    unfold report_txt. now destruct binary.
Qed.

Lemma train_report_witness :
  let E := sample_env true in
  let r := train E main_backbone "train" "valid" "models/" 64 false
             empty_world in
  let m := mk_model main_backbone 9 in
  let valid_dl := validation_loader E main_backbone "valid" 64 false in
  let report_file :=
    Path "models/" // Path (get_run_name (now E) main_backbone false)
    // Path "report.txt" in
  r = (inr m, snd r) /\
  (validate_binarized m valid_dl ∈ calls_during empty_world (snd r)
   <-> false = false) /\
  binarized_validations (calls_during empty_world (snd r))
  = [(m, valid_dl)] /\
  read_text (w_fs (snd r)) report_file
  = Some (validate_report E m valid_dl
          +:+ str_repeat 5 newline +:+ "Binarized:"
          +:+ validate_binarized_report E m valid_dl).
Proof.
  intros E r m valid_dl report_file.
  assert (H : r = (inr m, snd r))
    by (apply returns_eta; vm_compute; reflexivity).
  split; [exact H|].
  exact (train_report E main_backbone "train" "valid" "models/" 64 false
           empty_world m (snd r) H).
Defined.

(** C5: in a run of [train] that returns, two loaders are built and
    handed to the learner that is fitted: the training loader, over the
    dataset of [train_dir], with [shuffle=True] and [drop_last=True]; the
    validation loader, over the dataset of [valid_dir], with
    [shuffle=False] and [drop_last] left at its default [False]; both with
    [num_workers] the value of [os.cpu_count()]. *)
Theorem train_loaders E backbone train_dir valid_dir save_dir batch_size
    binary w m w' :
  train E backbone train_dir valid_dir save_dir batch_size binary w
  = (inr m, w') ->
  exists train_dl valid_dl l n lr cbs,
    loaders_built (calls_during w w') = [train_dl; valid_dl] /\
    fit_calls (calls_during w w') = [(l, n, lr, cbs)] /\
    dls_train (lrn_dls l) = train_dl /\
    dls_valid (lrn_dls l) = valid_dl /\
    ds_root (dl_dataset train_dl) = train_dir /\
    ds_root (dl_dataset valid_dl) = valid_dir /\
    dl_shuffle train_dl = true /\
    dl_drop_last train_dl = true /\
    dl_shuffle valid_dl = false /\
    dl_drop_last valid_dl = false /\
    dl_num_workers train_dl = cpu_count E /\
    dl_num_workers valid_dl = cpu_count E.
Proof.
  intros H.
  destruct (train_calls_during _ _ _ _ _ _ _ _ _ _ H) as [-> _].
  unfold train_calls. cbv zeta.
  destruct binary, (cuda_is_available E);
    do 6 eexists; (split; [reflexivity|]); (split; [reflexivity|]);
    repeat split.
Qed.

Lemma train_loaders_witness :
  let E := sample_env true in
  let r := train E main_backbone "train" "valid" "models/" 64 false
             empty_world in
  r = (inr (mk_model main_backbone 9), snd r) /\
  exists train_dl valid_dl l n lr cbs,
    loaders_built (calls_during empty_world (snd r)) = [train_dl; valid_dl] /\
    fit_calls (calls_during empty_world (snd r)) = [(l, n, lr, cbs)] /\
    dls_train (lrn_dls l) = train_dl /\
    dls_valid (lrn_dls l) = valid_dl /\
    ds_root (dl_dataset train_dl) = "train" /\
    ds_root (dl_dataset valid_dl) = "valid" /\
    dl_shuffle train_dl = true /\
    dl_drop_last train_dl = true /\
    dl_shuffle valid_dl = false /\
    dl_drop_last valid_dl = false /\
    dl_num_workers train_dl = cpu_count E /\
    dl_num_workers valid_dl = cpu_count E.
Proof.
  intros E r.
  assert (H : r = (inr (mk_model main_backbone 9), snd r))
    by (apply returns_eta; vm_compute; reflexivity).
  split; [exact H|].
  exact (train_loaders E main_backbone "train" "valid" "models/" 64 false
           empty_world _ (snd r) H).
Defined.

(** C6: in a run of [train] that returns, the learner is fitted once, by
    [fit_one_cycle] with [n_epoch=4] and the fixed peak learning rate
    [lr_max=1e-4], under two callbacks: early stopping that monitors
    ["valid_loss"] with [min_delta=0.01] and [patience=4], and the CSV
    logger. *)
Theorem train_fit E backbone train_dir valid_dir save_dir batch_size
    binary w m w' :
  train E backbone train_dir valid_dir save_dir batch_size binary w
  = (inr m, w') ->
  exists l,
    fit_calls (calls_during w w')
    = [(l, 4%N, Float 1 (-4),
        [EarlyStoppingCallback "valid_loss" (Float 1 (-2)) 4; CSVLogger])] /\
    lrn_model l = m.
Proof.
  intros H.
  destruct (train_calls_during _ _ _ _ _ _ _ _ _ _ H) as [-> ->].
  unfold train_calls. cbv zeta.
  destruct binary, (cuda_is_available E); eexists; split; reflexivity.
Qed.

Lemma train_fit_witness :
  let E := sample_env true in
  let r := train E main_backbone "train" "valid" "models/" 64 false
             empty_world in
  r = (inr (mk_model main_backbone 9), snd r) /\
  exists l,
    fit_calls (calls_during empty_world (snd r))
    = [(l, 4%N, Float 1 (-4),
        [EarlyStoppingCallback "valid_loss" (Float 1 (-2)) 4; CSVLogger])] /\
    lrn_model l = mk_model main_backbone 9.
Proof.
  intros E r.
  assert (H : r = (inr (mk_model main_backbone 9), snd r))
    by (apply returns_eta; vm_compute; reflexivity).
  split; [exact H|].
  exact (train_fit E main_backbone "train" "valid" "models/" 64 false
           empty_world _ (snd r) H).
Defined.

Ltac each_call Hev :=
  simpl in Hev;
  repeat (apply elem_of_cons in Hev as [->|Hev]);
  [..| now apply elem_of_nil in Hev].

(** C7: in a run of [train] that returns, the device is ["cuda"] exactly
    when [torch.cuda.is_available()] and ["cpu"] otherwise, every call
    that takes a device is given that one, and
    [torch.set_float32_matmul_precision("high")] is called if and only if
    an accelerator is available. *)
Theorem train_device E backbone train_dir valid_dir save_dir batch_size
    binary w m w' :
  train E backbone train_dir valid_dir save_dir batch_size binary w
  = (inr m, w') ->
  let device := TorchDevice (if cuda_is_available E then "cuda" else "cpu") in
  model_to m device ∈ calls_during w w' /\
  (forall ev d, ev ∈ calls_during w w' -> d ∈ devices_of ev -> d = device) /\
  precision_settings (calls_during w w')
  = (if cuda_is_available E then ["high"] else []) /\
  (set_float32_matmul_precision "high" ∈ calls_during w w'
   <-> cuda_is_available E = true).
Proof.
  intros H.
  destruct (train_calls_during _ _ _ _ _ _ _ _ _ _ H) as [-> ->].
  unfold train_calls, loaded_model. cbv zeta.
  split; [|split; [|split]].
  - apply elem_of_app. right. apply elem_of_app. left.
    do 9 apply list_elem_of_further. apply list_elem_of_here.
  - intros ev d Hev Hd.
    destruct binary, (cuda_is_available E); each_call Hev;
      each_call Hd; reflexivity.
  - now destruct binary, (cuda_is_available E).
  - destruct (cuda_is_available E).
    + split; [reflexivity|]. intros _. apply elem_of_app. left.
      apply list_elem_of_here.
    + split; [|discriminate]. intros Hin. exfalso.
      destruct binary; simpl in Hin;
        repeat (apply elem_of_cons in Hin as [Hin|Hin]; [discriminate|]);
        now apply elem_of_nil in Hin.
Qed.

Lemma train_device_witness :
  let E := sample_env true in
  let r := train E main_backbone "train" "valid" "models/" 64 false
             empty_world in
  let m := mk_model main_backbone 9 in
  let device := TorchDevice "cuda" in
  r = (inr m, snd r) /\
  model_to m device ∈ calls_during empty_world (snd r) /\
  (forall ev d, ev ∈ calls_during empty_world (snd r) ->
                d ∈ devices_of ev -> d = device) /\
  precision_settings (calls_during empty_world (snd r)) = ["high"] /\
  (set_float32_matmul_precision "high" ∈ calls_during empty_world (snd r)
   <-> true = true).
Proof.
  intros E r m device.
  assert (H : r = (inr m, snd r))
    by (apply returns_eta; vm_compute; reflexivity).
  split; [exact H|].
  exact (train_device E main_backbone "train" "valid" "models/" 64 false
           empty_world m (snd r) H).
Defined.

(** C8: in a run of [train] that returns, [load_model] is called once,
    with the class count the training dataset reports; every call that is
    handed a model is handed one with that class count, every call that is
    handed a dataset is handed one of the two that were built, and the
    model returned has that class count. *)
Theorem train_class_count E backbone train_dir valid_dir save_dir batch_size
    binary w m w' :
  train E backbone train_dir valid_dir save_dir batch_size binary w
  = (inr m, w') ->
  exists train_ds valid_ds,
    datasets_built (calls_during w w') = [train_ds; valid_ds] /\
    ds_root train_ds = train_dir /\
    n_classes train_ds = reported_n_classes E train_dir binary /\
    load_model_calls (calls_during w w') = [(backbone, n_classes train_ds)] /\
    (forall ev m', ev ∈ calls_during w w' -> m' ∈ models_of ev ->
                   model_n_classes m' = n_classes train_ds) /\
    (forall ev ds, ev ∈ calls_during w w' -> ds ∈ datasets_of ev ->
                   ds = train_ds \/ ds = valid_ds) /\
    model_n_classes m = n_classes train_ds.
Proof.
  intros H.
  destruct (train_calls_during _ _ _ _ _ _ _ _ _ _ H) as [-> ->].
  unfold train_calls, loaded_model. cbv zeta.
  destruct binary, (cuda_is_available E);
    do 2 eexists;
    (split; [reflexivity|]); (split; [reflexivity|]);
    (split; [reflexivity|]); (split; [reflexivity|]);
    (split; [|split; [|reflexivity]]);
    intros ev x Hev Hx; each_call Hev; each_call Hx; auto.
Qed.

Lemma train_class_count_witness :
  let E := sample_env true in
  let r := train E main_backbone "train" "valid" "models/" 64 false
             empty_world in
  let m := mk_model main_backbone 9 in
  r = (inr m, snd r) /\
  exists train_ds valid_ds,
    datasets_built (calls_during empty_world (snd r))
    = [train_ds; valid_ds] /\
    ds_root train_ds = "train" /\
    n_classes train_ds = reported_n_classes E "train" false /\
    load_model_calls (calls_during empty_world (snd r))
    = [(main_backbone, n_classes train_ds)] /\
    (forall ev m', ev ∈ calls_during empty_world (snd r) ->
                   m' ∈ models_of ev ->
                   model_n_classes m' = n_classes train_ds) /\
    (forall ev ds, ev ∈ calls_during empty_world (snd r) ->
                   ds ∈ datasets_of ev ->
                   ds = train_ds \/ ds = valid_ds) /\
    model_n_classes m = n_classes train_ds.
Proof.
  intros E r m.
  assert (H : r = (inr m, snd r))
    by (apply returns_eta; vm_compute; reflexivity).
  split; [exact H|].
  exact (train_class_count E main_backbone "train" "valid" "models/" 64 false
           empty_world m (snd r) H).
Defined.

(** * Runs of [train] on a fresh run directory *)

Section Forward.

Variable E : env.
Implicit Types (f : filesystem) (p : path) (w : world).

Lemma bind_inr_l {A B} (m : M A) (k : A -> M B) w a w1 :
  m w = (inr a, w1) -> (m ≫= k) w = k a w1.
Proof. unfold mbind, M_bind. now intros ->. Qed.

Lemma call_bind {B} ev (k : unit -> M B) w :
  raises E ev = None ->
  (call E ev ≫= k) w
  = k tt {| w_fs := w_fs w; w_trace := w_trace w ++ [ev] |}.
Proof. intros Hq. apply bind_inr_l. unfold call. now rewrite Hq. Qed.

Lemma ready_dir_le f f' p D :
  dirs_le f f' ->
  (forall name, nodes f' !! (D ++ [name]) <> Some Dir) ->
  ready_dir f p D -> ready_dir f' p D.
Proof.
  intros Hle Hn [Hw _]. split; [|assumption].
  rewrite <- (start_le f f' p Hle). now apply (walk_mono f).
Qed.

Lemma ready_dir_write f p D h s :
  ready_dir f p D -> ready_dir (FS.write h s f) p D.
Proof.
  intros Hr. apply (ready_dir_le f); [apply write_dirs_le | | assumption].
  intros name. unfold FS.write.
  destruct (nodes f !! h) as [[|c]|] eqn:Hh; try apply Hr.
  simpl. destruct (decide (h = D ++ [name])) as [->|Hne].
  - now rewrite lookup_insert_eq.
  - rewrite lookup_insert_ne by assumption. apply Hr.
Qed.

Lemma bind_assoc {A B C} (m : M A) (k1 : A -> M B) (k2 : B -> M C) w :
  ((m ≫= k1) ≫= k2) w = (m ≫= fun a => k1 a ≫= k2) w.
Proof. unfold mbind, M_bind. now destruct (m w) as [[e|a] w1]. Qed.

Lemma fwrite_bind {B} h s (k : unit -> M B) f tr :
  (fwrite h s ≫= k) {| w_fs := f; w_trace := tr |}
  = k tt {| w_fs := FS.write h s f; w_trace := tr |}.
Proof. reflexivity. Qed.

(** Opening a file by name inside a ready directory returns. *)
Lemma open_in_ready_dir f p D name truncate :
  ready_dir f p D -> plain name ->
  exists f',
    FS.open (p // mk_path false [name]) truncate f = (inr (D ++ [name]), f') /\
    ready_dir f' p D.
Proof.
  intros [Hw Hn] Hname. unfold FS.open, join, start in *. simpl.
  rewrite unsnoc_snoc, Hw, Hname.
  assert (Hk : node_at f (D ++ [name]) = nodes f !! (D ++ [name])).
  { unfold node_at. destruct (D ++ [name]) eqn:Hk; [now destruct D|].
    reflexivity. }
  rewrite Hk. specialize (Hn name) as Hnn.
  assert (Hset : forall c,
    ready_dir (set_node (D ++ [name]) (File c) f) p D).
  { intros c. apply (ready_dir_le f).
    - now apply dirs_le_set_file.
    - intros name'. simpl.
      destruct (decide (D ++ [name] = D ++ [name'])) as [<-|Hne].
      + now rewrite lookup_insert_eq.
      + rewrite lookup_insert_ne by assumption. apply Hn.
    - now split. }
  destruct (nodes f !! (D ++ [name])) as [[|c]|]; [congruence| |].
  - eexists. split; [reflexivity|].
    destruct truncate; [apply Hset | now split].
  - eexists. split; [reflexivity|]. apply Hset.
Qed.

Lemma library_writes_in_ready_dir f p D name s tr :
  ready_dir f p D -> plain name ->
  exists f',
    library_writes (p // mk_path false [name]) s
      {| w_fs := f; w_trace := tr |}
    = (inr tt, {| w_fs := f'; w_trace := tr |}) /\
    ready_dir f' p D.
Proof.
  intros Hr Hname.
  destruct (open_in_ready_dir f p D name true Hr Hname) as (f1 & Hop & Hr1).
  exists (FS.write (D ++ [name]) s f1). split.
  - unfold library_writes, fopen.
    rewrite (bind_inr_l _ _ _ (D ++ [name]) {| w_fs := f1; w_trace := tr |});
      [reflexivity|].
    unfold on_fs. simpl. now rewrite Hop.
  - now apply ready_dir_write.
Qed.

(** [mkdir] of a new directory below an existing one leaves it ready. *)
Lemma mkdir_fresh_ready (a : bool) q x r d f :
  walk f (if a then [] else cwd f) q = inr d ->
  Forall plain (x :: r) ->
  forallb fits (x :: r) = true ->
  (forall k, nodes f !! (d ++ x :: k) = None) ->
  FS.mkdir (mk_path a (q ++ x :: r)) true true f
  = (inr tt, add_dirs d (x :: r) f) /\
  ready_dir (add_dirs d (x :: r) f) (mk_path a (q ++ x :: r)) (d ++ x :: r).
Proof.
  intros Hq Hplain Hfits Hfresh. split.
  - apply mkdir_creates; try assumption.
    intros [|y r1] r2 Hr Hne; [congruence|].
    injection Hr as <- _. unfold node_at.
    destruct (d ++ x :: r1) eqn:Hk; [now destruct d|].
    rewrite <- Hk. apply Hfresh.
  - split.
    + unfold start. cbn [anchored parts]. rewrite cwd_add_dirs, walk_app.
      rewrite (walk_mono f _ _ _ d (dirs_le_add_dirs d (x :: r) f) Hq).
      now apply walk_plain_dirs.
    + intros name.
      assert (Hk : node_at (add_dirs d (x :: r) f) ((d ++ x :: r) ++ [name])
                   = None).
      { rewrite node_at_add_dirs_long
          by (rewrite !length_app; simpl; lia).
        unfold node_at.
        destruct ((d ++ x :: r) ++ [name]) eqn:Hk; [now destruct d|].
        rewrite <- Hk, <- app_assoc. apply Hfresh. }
      unfold node_at in Hk.
      destruct ((d ++ x :: r) ++ [name]) eqn:Hk'; [now destruct d|].
      now rewrite Hk.
Qed.

End Forward.

Ltac solve_in :=
  repeat first [apply list_elem_of_here | apply list_elem_of_further].

Ltac run_calls Hquiet :=
  repeat (rewrite call_bind by (apply Hquiet; solve_in);
          cbn [w_fs w_trace]).

Ltac run_library_writes Hready :=
  match goal with
  | |- context [(library_writes (?p // mk_path false [?name]) ?s ≫= _)
                  {| w_fs := ?f; w_trace := ?tr |}] =>
      let f' := fresh "f" in
      let Hlw := fresh "Hlw" in
      let Hr := fresh "Hready" in
      destruct (library_writes_in_ready_dir f p _ name s tr Hready eq_refl)
        as (f' & Hlw & Hr);
      rewrite (bind_inr_l _ _ _ _ _ Hlw);
      clear Hlw Hready; rename Hr into Hready
  end.

Ltac run_fopen Hready :=
  match goal with
  | |- context [(fopen (?p // mk_path false [?name]) ?t ≫= _)
                  {| w_fs := ?f; w_trace := ?tr |}] =>
      let f' := fresh "f" in
      let Hop := fresh "Hop" in
      let Hr := fresh "Hready" in
      destruct (open_in_ready_dir f p _ name t Hready eq_refl)
        as (f' & Hop & Hr);
      rewrite (bind_inr_l _ _ _ _ {| w_fs := f'; w_trace := tr |})
        by (unfold fopen, on_fs; cbn [w_fs w_trace]; now rewrite Hop);
      clear Hop Hready; rename Hr into Hready
  end.

Ltac run_fwrite Hready :=
  match goal with
  | |- context [(fwrite ?h ?s ≫= _) {| w_fs := ?f; w_trace := ?tr |}] =>
      rewrite (fwrite_bind h s _ f tr);
      apply (ready_dir_write _ _ _ h s) in Hready
  end.

(** In this model of the disk and of the libraries, [train] returns when
    no library call raises and the run directory is new: its path leads
    through an existing directory [q] to names [x :: r] that fit, with
    nothing yet at or below [q/x].  So the theorems about runs that
    return are about runs that exist. *)
Lemma train_returns E backbone train_dir valid_dir save_dir batch_size binary
    w q x r d :
  let p := Path save_dir // Path (get_run_name (now E) backbone binary) in
  (forall ev,
      ev ∈ train_calls E backbone train_dir valid_dir save_dir batch_size
             binary ->
      raises E ev = None) ->
  parts p = q ++ x :: r ->
  walk (w_fs w) (start (w_fs w) p) q = inr d ->
  Forall plain (x :: r) ->
  forallb fits (x :: r) = true ->
  (forall k, nodes (w_fs w) !! (d ++ x :: k) = None) ->
  exists w',
    train E backbone train_dir valid_dir save_dir batch_size binary w
    = (inr (loaded_model E backbone train_dir binary), w').
Proof.
  intros p Hquiet Hp Hq Hplain Hfits Hfresh.
  destruct (mkdir_fresh_ready (anchored p) q x r d (w_fs w) Hq Hplain Hfits
              Hfresh) as [Hmk Hready].
  replace (mk_path (anchored p) (q ++ x :: r)) with p in Hmk, Hready
    by (rewrite <- Hp; now destruct p).
  unfold train. cbv zeta. fold p.
  change (Path "history.csv") with (mk_path false ["history.csv"]).
  change (Path "config.json") with (mk_path false ["config.json"]).
  change (Path "model.pt") with (mk_path false ["model.pt"]).
  change (Path "report.txt") with (mk_path false ["report.txt"]).
  unfold train_calls in Hquiet. cbv zeta in Hquiet. fold p in Hquiet.
  change (Path "model.pt") with (mk_path false ["model.pt"]) in Hquiet.
  rewrite (bind_inr_l _ _ w tt
             {| w_fs := add_dirs d (x :: r) (w_fs w); w_trace := w_trace w |})
    by (unfold on_fs; now rewrite Hmk).
  clear Hmk.
  destruct binary, (cuda_is_available E);
    cbn [app negb lrn_path] in Hquiet |- *.
  all: rewrite ?(bind_inr_l (mret tt) _ _ tt _ eq_refl).
  all: run_calls Hquiet.
  all: run_library_writes Hready; run_calls Hquiet.
  all: run_library_writes Hready; run_calls Hquiet.
  all: run_library_writes Hready; run_calls Hquiet.
  all: run_fopen Hready; run_fwrite Hready.
  all: rewrite ?(bind_inr_l (mret tt) _ _ tt _ eq_refl).
  all: try (eexists; reflexivity).
  all: rewrite bind_assoc; run_calls Hquiet.
  all: rewrite bind_assoc; run_calls Hquiet.
  all: rewrite bind_assoc; run_fopen Hready.
  all: rewrite bind_assoc; run_fwrite Hready.
  all: run_fwrite Hready.
  all: eexists; reflexivity.
Qed.

(** * Any run of [train], returning or not *)

Section AnyRun.

Variable E : env.

Lemma bind_cases {A B} (m : M A) (k : A -> M B) w r w' :
  (m ≫= k) w = (r, w') ->
  (exists e, m w = (inl e, w') /\ r = inl e) \/
  (exists a w1, m w = (inr a, w1) /\ k a w1 = (r, w')).
Proof.
  unfold mbind, M_bind. destruct (m w) as [[e|a] w1].
  - intros [= <- <-]. left. eauto.
  - intros H. right. eauto.
Qed.

Lemma call_trace_inl ev w e w' :
  call E ev w = (inl e, w') -> w_trace w' = w_trace w.
Proof.
  unfold call. destruct (raises E ev); [|discriminate]. now intros [= _ <-].
Qed.

Lemma call_trace_inr ev w a w' :
  call E ev w = (inr a, w') -> w_trace w' = w_trace w ++ [ev].
Proof. intros H. now apply call_inr in H as [_ ->]. Qed.

Lemma silent_on_fs {A} (op : filesystem -> (exn + A) * filesystem) :
  silent (on_fs op).
Proof.
  intros w r w'. unfold on_fs. destruct (op (w_fs w)).
  now intros [= _ <-].
Qed.

Lemma silent_mret {A} (a : A) : silent (mret a).
Proof. intros w r w'. now intros [= _ <-]. Qed.

Lemma silent_bind {A B} (m : M A) (k : A -> M B) :
  silent m -> (forall a, silent (k a)) -> silent (m ≫= k).
Proof.
  intros Hm Hk w r w' H.
  apply bind_cases in H as [(e & H & _) | (a & w1 & H1 & H2)].
  - now apply Hm in H.
  - apply Hm in H1. apply Hk in H2. congruence.
Qed.

Lemma silent_fwrite h s : silent (fwrite h s).
Proof. apply silent_on_fs. Qed.

Lemma silent_fopen p t : silent (fopen p t).
Proof. apply silent_on_fs. Qed.

Lemma silent_library_writes p s : silent (library_writes p s).
Proof.
  apply silent_bind; [apply silent_fopen | intros; apply silent_fwrite].
Qed.

Lemma step_stop_call ev w1 e w' tr :
  call E ev w1 = (inl e, w') -> w_trace w1 = tr -> w_trace w' = tr.
Proof. intros H <-. now apply call_trace_inl in H. Qed.

Lemma step_stop_silent {A} (m : M A) w1 r w' tr :
  m w1 = (r, w') -> w_trace w1 = tr -> silent m -> w_trace w' = tr.
Proof. intros H <- Hs. now apply Hs in H. Qed.

Lemma step_go_call ev w1 a w2 tr l :
  call E ev w1 = (inr a, w2) -> w_trace w1 = tr ++ l ->
  w_trace w2 = tr ++ (l ++ [ev]).
Proof.
  intros H Htr. apply call_trace_inr in H. now rewrite H, Htr, app_assoc.
Qed.

End AnyRun.

Create HintDb silent.
#[global] Hint Resolve silent_on_fs silent_mret silent_fwrite silent_fopen
  silent_library_writes : silent.

(** One step of a run: either it stops here, with the calls placed so
    far, or it goes on. *)
Ltac advance H Htr :=
  rewrite ?bind_assoc in H;
  let Hm := fresh "Hm" in
  let Hs := fresh "Hs" in
  let e := fresh "e" in
  let a := fresh "a" in
  let w1 := fresh "w" in
  apply bind_cases in H as [(e & Hm & ->) | (a & w1 & Hm & H)];
  [ first [ pose proof (step_stop_call _ _ _ _ _ _ Hm Htr) as Hs
          | pose proof (step_stop_silent _ _ _ _ _ Hm Htr) as Hs;
            specialize (Hs ltac:(auto with silent)) ];
    eexists; split; [exact Hs | eexists; reflexivity]
  | first [ pose proof (step_go_call _ _ _ _ _ _ _ Hm Htr) as Hs;
            cbn [app] in Hs
          | pose proof (step_stop_silent _ _ _ _ _ Hm Htr) as Hs;
            specialize (Hs ltac:(auto with silent)) ];
    clear Htr Hm; rename Hs into Htr ].

(** Whatever happens, the calls [train] has placed when it stops are an
    initial part of [train_calls]. *)
Lemma train_calls_prefix E backbone train_dir valid_dir save_dir batch_size
    binary w r w' :
  train E backbone train_dir valid_dir save_dir batch_size binary w
  = (r, w') ->
  calls_during w w'
  `prefix_of`
  train_calls E backbone train_dir valid_dir save_dir batch_size binary.
Proof.
  intros H. unfold calls_during.
  enough (exists l,
             w_trace w' = w_trace w ++ l /\
             l `prefix_of` train_calls E backbone train_dir valid_dir save_dir
                             batch_size binary)
    as (l & -> & Hl) by now rewrite drop_app_length.
  assert (Htr : w_trace w = w_trace w ++ []) by now rewrite app_nil_r.
  unfold train in H. cbv zeta in H. unfold train_calls. cbv zeta.
  destruct binary, (cuda_is_available E); cbn [negb app] in H |- *.
  all: repeat advance H Htr.
  all: injection H as <- <-; eexists; split;
    [exact Htr | eexists; symmetry; apply app_nil_r].
Qed.

(** X7: in every run of [train], also one that ends in an exception: a
    call that takes a device takes the one resolved from
    [torch.cuda.is_available()]; the matmul precision is only ever set to
    ["high"], and only with an accelerator; [validate_binarized] is only
    called when [binary] is false; a model handed to a call has the
    training dataset's class count; a loader is only built with
    [os.cpu_count()] workers, and drops a partial batch exactly when it
    shuffles. *)
Lemma any_run_safety E backbone train_dir valid_dir save_dir batch_size
    binary w r w' :
  train E backbone train_dir valid_dir save_dir batch_size binary w
  = (r, w') ->
  forall ev, ev ∈ calls_during w w' ->
    (forall d, d ∈ devices_of ev ->
       d = TorchDevice (if cuda_is_available E then "cuda" else "cpu")) /\
    (forall s, ev = set_float32_matmul_precision s ->
       s = "high" /\ cuda_is_available E = true) /\
    (forall m dl, ev = validate_binarized m dl -> binary = false) /\
    (forall m, m ∈ models_of ev ->
       model_n_classes m = reported_n_classes E train_dir binary) /\
    (forall dl, ev = new_DataLoader dl ->
       dl_num_workers dl = cpu_count E /\ dl_drop_last dl = dl_shuffle dl).
Proof.
  intros H ev Hev.
  apply train_calls_prefix in H as [k Hk].
  assert (Hin : ev ∈ train_calls E backbone train_dir valid_dir save_dir
                       batch_size binary)
    by (rewrite Hk; apply elem_of_app; now left).
  clear Hk Hev. unfold train_calls in Hin. cbv zeta in Hin.
  destruct binary, (cuda_is_available E); each_call Hin;
    (split; [intros d Hd; each_call Hd; reflexivity|]);
    (split; [intros s [= <-]; now split|]);
    (split; [intros m dl [=]; reflexivity|]);
    (split; [intros m Hm; each_call Hm; reflexivity|]);
    intros dl [= <-]; now split.
Qed.

(** * The files of a run *)

Section Keeping.

Implicit Types (f : filesystem) (p : path) (k h d D : list string).

Lemma nodes_node_at f k :
  k <> [] -> node_at f k = nodes f !! k.
Proof. now destruct k. Qed.

Lemma set_node_set_node k n1 n2 f :
  set_node k n2 (set_node k n1 f) = set_node k n2 f.
Proof. unfold set_node. simpl. now rewrite insert_insert_eq. Qed.

Lemma walk_set_file f k c cur comps D :
  nodes f !! k <> Some Dir ->
  walk f cur comps = inr D ->
  walk (set_node k (File c) f) cur comps = inr D.
Proof. intros Hk. apply walk_mono. now apply dirs_le_set_file. Qed.

(** Opening a file by name inside the directory [p], found at [D]. *)
Lemma open_in_dir_inr f p D name truncate h f' :
  walk f (start f p) (parts p) = inr D ->
  plain name ->
  FS.open (p // mk_path false [name]) truncate f = (inr h, f') ->
  h = D ++ [name] /\
  nodes f !! h <> Some Dir /\
  f' = match nodes f !! h with
       | Some (File c) => if truncate then set_node h (File EmptyString) f
                          else f
       | _ => set_node h (File EmptyString) f
       end.
Proof.
  intros Hw Hname. unfold FS.open, join, start in *. simpl.
  rewrite unsnoc_snoc, Hw, Hname.
  rewrite nodes_node_at by apply snoc_not_nil.
  destruct (nodes f !! (D ++ [name])) as [[|c]|] eqn:Hn;
    [discriminate| |]; intros [= <- <-]; rewrite Hn;
    (split; [reflexivity|split; [discriminate|reflexivity]]).
Qed.

End Keeping.

Section Writing.

Implicit Types (f : filesystem) (p : path) (k h d D : list string).

Lemma write_exact h s f c :
  nodes f !! h = Some (File c) ->
  FS.write h s f = set_node h (File (c +:+ s)) f.
Proof. intros Hc. unfold FS.write. now rewrite Hc. Qed.

Lemma open_truncate_in_dir_inr f p D name h f' :
  walk f (start f p) (parts p) = inr D ->
  plain name ->
  FS.open (p // mk_path false [name]) true f = (inr h, f') ->
  h = D ++ [name] /\
  nodes f !! h <> Some Dir /\
  f' = set_node h (File EmptyString) f.
Proof.
  intros Hw Hname Hop.
  destruct (open_in_dir_inr f p D name true h f' Hw Hname Hop)
    as (-> & Hnd & ->).
  split; [reflexivity|]. split; [assumption|].
  now destruct (nodes f !! (D ++ [name])) as [[|c]|].
Qed.

(** A library's write of a file by name inside the directory [p]. *)
Lemma library_writes_in_dir_inr p D name s w u w' :
  walk (w_fs w) (start (w_fs w) p) (parts p) = inr D ->
  plain name ->
  library_writes (p // mk_path false [name]) s w = (inr u, w') ->
  nodes (w_fs w) !! (D ++ [name]) <> Some Dir /\
  w' = {| w_fs := set_node (D ++ [name]) (File s) (w_fs w);
          w_trace := w_trace w |}.
Proof.
  intros Hw Hname H. unfold library_writes in H.
  apply bind_inr in H as (h & w1 & Hop & H).
  apply on_fs_inr in Hop as (f1 & Hop & ->).
  apply fwrite_inr in H as ->. cbn [w_fs w_trace].
  apply (open_truncate_in_dir_inr _ p D name) in Hop as (-> & Hnd & ->);
    try assumption.
  split; [assumption|]. f_equal.
  rewrite (write_exact _ _ _ EmptyString)
    by (simpl; apply lookup_insert_eq).
  apply set_node_set_node.
Qed.

(** Reading a file by name inside the directory [p], found at [D]. *)
Lemma read_text_in_dir f p D name :
  walk f (start f p) (parts p) = inr D ->
  plain name ->
  read_text f (p // mk_path false [name])
  = match nodes f !! (D ++ [name]) with
    | Some (File c) => Some c
    | _ => None
    end.
Proof.
  intros Hw Hname. unfold read_text, join, start in *. simpl.
  rewrite unsnoc_snoc, Hw, Hname.
  now rewrite nodes_node_at by apply snoc_not_nil.
Qed.

End Writing.

Ltac peel_library_writes_exact H Hw Hnd :=
  let u := fresh "u" in
  let w := fresh "w" in
  let Hc := fresh "Hc" in
  apply bind_inr in H as (u & w & Hc & H);
  match type of Hc with
  | library_writes (?p0 // mk_path false [?name]) ?s ?w0 = _ =>
      apply (library_writes_in_dir_inr p0 _ name s w0 _ _ Hw eq_refl) in Hc
        as [Hnd ->];
      cbn [w_fs w_trace] in H, Hnd;
      apply (walk_set_file _ _ s _ _ _ Hnd) in Hw
  end.

(** The file system a returning run leaves: the one [mkdir] left, with
    the four files of the run written into the run directory, there at
    [D]. *)
Lemma train_inr_fs E backbone train_dir valid_dir save_dir batch_size binary
    w m w' :
  train E backbone train_dir valid_dir save_dir batch_size binary w
  = (inr m, w') ->
  let p := run_directory E save_dir backbone binary in
  exists f1 D,
    FS.mkdir p true true (w_fs w) = (inr tt, f1) /\
    walk f1 (start f1 p) (parts p) = inr D /\
    walk (w_fs w') (start (w_fs w') p) (parts p) = inr D /\
    (forall name, name ∈ ["history.csv"; "config.json"; "model.pt";
                          "report.txt"] ->
                  nodes f1 !! (D ++ [name]) <> Some Dir) /\
    w_fs w'
    = set_node (D ++ ["report.txt"])
        (File (report_txt E m
                 (validation_loader E backbone valid_dir batch_size binary)
                 binary))
        (set_node (D ++ ["model.pt"]) (File (state_dict E m))
           (set_node (D ++ ["config.json"])
              (File (config_json E (saved_config E backbone train_dir binary)))
              (set_node (D ++ ["history.csv"])
                 (File (history_csv E
                          (fitted_learner E backbone train_dir valid_dir
                             save_dir batch_size binary)))
                 f1))).
Proof.
  intros H p.
  pose proof (train_calls_during _ _ _ _ _ _ _ _ _ _ H) as [_ ->].
  unfold train in H. cbv zeta in H.
  fold (run_directory E save_dir backbone binary) in H. fold p in H.
  change (Path "history.csv") with (mk_path false ["history.csv"]) in H.
  change (Path "config.json") with (mk_path false ["config.json"]) in H.
  change (Path "model.pt") with (mk_path false ["model.pt"]) in H.
  change (Path "report.txt") with (mk_path false ["report.txt"]) in H.
  apply bind_inr in H as ([] & w0 & Hmk & H).
  apply on_fs_inr in Hmk as (f1 & Hmk & ->).
  assert (Hw : exists D, walk f1 (start f1 p) (parts p) = inr D).
  { apply mkdir_inr in Hmk as [_ Hd]. unfold is_dir in Hd.
    destruct (walk f1 (start f1 p) (parts p)); [discriminate|eauto]. }
  destruct Hw as [D Hw]. exists f1, D.
  split; [exact Hmk|]. split; [exact Hw|].
  apply bind_inr in H as (ug & wg & Hgpu & H).
  assert (Hwg : w_fs wg = f1).
  { destruct (cuda_is_available E).
    - now apply call_inr in Hgpu as [_ ->].
    - now injection Hgpu as _ <-. }
  destruct wg as [fg trg]. cbn [w_fs] in Hwg. subst fg. clear Hgpu.
  do 15 peel_call H. cbn [lrn_path] in H.
  peel_library_writes_exact H Hw Hnd1.
  peel_call H.
  peel_library_writes_exact H Hw Hnd2.
  peel_call H.
  peel_library_writes_exact H Hw Hnd3.
  do 2 peel_call H.
  apply bind_inr in H as (h & ? & Hop & H).
  apply on_fs_inr in Hop as (f5 & Hop & ->). cbn [w_fs w_trace] in H, Hop.
  apply (open_truncate_in_dir_inr _ p D "report.txt" _ _ Hw eq_refl) in Hop
    as (-> & Hndr & ->).
  apply bind_inr in H as (? & ? & Hwr & H).
  apply fwrite_inr in Hwr as ->. cbn [w_fs w_trace] in H.
  rewrite (write_exact _ _ _ EmptyString) in H
    by (simpl; apply lookup_insert_eq).
  rewrite set_node_set_node, app_empty_l in H.
  assert (Hnot : forall name,
             name ∈ ["history.csv"; "config.json"; "model.pt"; "report.txt"] ->
             nodes f1 !! (D ++ [name]) <> Some Dir).
  { clear -Hnd1 Hnd2 Hnd3 Hndr.
    cbn [set_node nodes] in Hnd2, Hnd3, Hndr.
    repeat rewrite lookup_insert_ne in Hnd2 by (intros ?; simplify_list_eq).
    repeat rewrite lookup_insert_ne in Hnd3 by (intros ?; simplify_list_eq).
    repeat rewrite lookup_insert_ne in Hndr by (intros ?; simplify_list_eq).
    intros name Hin.
    repeat (apply elem_of_cons in Hin as [->|Hin]);
      [..| now apply elem_of_nil in Hin]; assumption. }
  apply bind_inr in H as (? & ? & Hbin & H).
  injection H as <-.
  unfold report_txt, fitted_learner, saved_config, loaded_model,
    validation_loader. cbv zeta. fold p.
  destruct binary; cbn [negb] in Hbin.
  - injection Hbin as _ <-. cbn [w_fs].
    split; [now apply walk_set_file|]. split; [exact Hnot|]. reflexivity.
  - do 2 peel_call Hbin.
    apply bind_inr in Hbin as (h' & ? & Hop2 & Hbin).
    apply on_fs_inr in Hop2 as (f6 & Hop2 & ->).
    cbn [w_fs w_trace] in Hbin, Hop2.
    pose proof Hw as Hw4.
    match type of Hop2 with
    | FS.open _ false (set_node _ (File ?c) _) = _ =>
        apply (walk_set_file _ _ c _ _ _ Hndr) in Hw
    end.
    apply (open_in_dir_inr _ p D "report.txt" false _ _ Hw eq_refl) in Hop2
      as (-> & _ & ->).
    cbn [set_node nodes] in Hbin. rewrite lookup_insert_eq in Hbin.
    apply bind_inr in Hbin as (? & ? & Hwr2 & Hbin).
    apply fwrite_inr in Hwr2 as ->. cbn [w_fs w_trace] in Hbin.
    apply fwrite_inr in Hbin as ->. cbn [w_fs w_trace].
    erewrite (write_exact _ (str_repeat 5 newline +:+ "Binarized:"))
      by (simpl; apply lookup_insert_eq).
    erewrite write_exact by (simpl; apply lookup_insert_eq).
    rewrite !set_node_set_node, !app_assoc_str.
    split; [now apply walk_set_file|]. split; [exact Hnot|]. reflexivity.
Qed.

(** X1: a run of [train] that returns has handed the model it returns to
    [torch.save] with the file [model.pt] of the run directory, and that
    file still holds the saved weights when [train] is done; the
    configuration it saved into the run directory is the one [load_model]
    gave for the same backbone and class count. *)
Theorem train_checkpoint_saved E backbone train_dir valid_dir save_dir
    batch_size binary w m w' :
  train E backbone train_dir valid_dir save_dir batch_size binary w
  = (inr m, w') ->
  let model_save_path :=
    Path save_dir // Path (get_run_name (now E) backbone binary) in
  torch_save m (model_save_path // Path "model.pt") ∈ calls_during w w' /\
  read_text (w_fs w') (model_save_path // Path "model.pt")
  = Some (state_dict E m) /\
  save_pretrained (mk_config backbone (model_n_classes m)) model_save_path
  ∈ calls_during w w'.
Proof.
  intros H p.
  destruct (train_calls_during _ _ _ _ _ _ _ _ _ _ H) as [Hcalls Hm].
  apply train_inr_fs in H as (f1 & D & _ & _ & Hw & Hnot & Hfs).
  rewrite Hcalls. subst m. fold (run_directory E save_dir backbone binary) in p.
  split; [|split].
  - unfold train_calls. cbv zeta. fold (run_directory E save_dir backbone binary).
    apply elem_of_app. right. apply elem_of_app. left.
    unfold loaded_model. solve_in.
  - change (Path "model.pt") with (mk_path false ["model.pt"]).
    rewrite (read_text_in_dir _ _ D) by (exact Hw || reflexivity).
    rewrite Hfs. cbn [set_node nodes].
    rewrite lookup_insert_ne by (intros ?; simplify_list_eq).
    now rewrite lookup_insert_eq.
  - unfold train_calls. cbv zeta. fold (run_directory E save_dir backbone binary).
    apply elem_of_app. right. apply elem_of_app. left.
    unfold loaded_model. solve_in.
Qed.

Lemma train_checkpoint_saved_witness :
  let E := sample_env true in
  let r := train E main_backbone "train" "valid" "models/" 64 false
             empty_world in
  let m := mk_model main_backbone 9 in
  let model_save_path :=
    Path "models/" // Path (get_run_name (now E) main_backbone false) in
  r = (inr m, snd r) /\
  torch_save m (model_save_path // Path "model.pt")
  ∈ calls_during empty_world (snd r) /\
  read_text (w_fs (snd r)) (model_save_path // Path "model.pt")
  = Some (state_dict E m) /\
  save_pretrained (mk_config main_backbone (model_n_classes m)) model_save_path
  ∈ calls_during empty_world (snd r).
Proof.
  intros E r m model_save_path.
  assert (H : r = (inr m, snd r))
    by (apply returns_eta; vm_compute; reflexivity).
  split; [exact H|].
  exact (train_checkpoint_saved E main_backbone "train" "valid" "models/" 64
           false empty_world m (snd r) H).
Defined.

(** * More on what a returning run has done *)

(** X4: in a run of [train] that returns, the learner that is built and
    fitted holds the returned model; its loss is cross-entropy without
    label smoothing, weighted by the inverse class weights of the dataset
    its training loader reads, moved to the resolved device; its learning
    rate is [1e-4] and its weight decay [1e-6]; its metrics are accuracy
    and macro-averaged precision, recall, F1 and ROC AUC, the AUC in its
    binary variant exactly when [binary] is true; and its path is the run
    directory. *)
Theorem train_learner E backbone train_dir valid_dir save_dir batch_size
    binary w m w' :
  train E backbone train_dir valid_dir save_dir batch_size binary w
  = (inr m, w') ->
  let device := TorchDevice (if cuda_is_available E then "cuda" else "cpu") in
  exists l n lr cbs,
    fit_calls (calls_during w w') = [(l, n, lr, cbs)] /\
    new_Learner l ∈ calls_during w w' /\
    lrn_model l = m /\
    dls_device (lrn_dls l) = device /\
    lrn_loss_func l
    = CrossEntropyLoss
        (InvWeights (dl_dataset (dls_train (lrn_dls l))) device) 0 /\
    inv_weights_to (InvWeights (dl_dataset (dls_train (lrn_dls l))) device)
    ∈ calls_during w w' /\
    lrn_lr l = Float 1 (-4) /\
    lrn_wd l = Float 1 (-6) /\
    lrn_metrics l
    = [ AccumMetric_accuracy false; Precision "macro"; Recall "macro";
        F1Score "macro";
        if binary then RocAucBinary "macro" else RocAuc "macro" ] /\
    lrn_path l = Path save_dir // Path (get_run_name (now E) backbone binary).
Proof.
  intros H.
  destruct (train_calls_during _ _ _ _ _ _ _ _ _ _ H) as [-> ->].
  unfold train_calls, loaded_model. cbv zeta.
  destruct binary, (cuda_is_available E);
    do 4 eexists; (split; [reflexivity|]);
    (split; [cbn [app]; solve_in|]);
    do 3 (split; [reflexivity|]);
    (split; [cbn [app]; solve_in|]);
    repeat split.
Qed.

Lemma train_learner_witness :
  let E := sample_env true in
  let r := train E main_backbone "train" "valid" "models/" 64 false
             empty_world in
  let m := mk_model main_backbone 9 in
  let device := TorchDevice "cuda" in
  r = (inr m, snd r) /\
  exists l n lr cbs,
    fit_calls (calls_during empty_world (snd r)) = [(l, n, lr, cbs)] /\
    new_Learner l ∈ calls_during empty_world (snd r) /\
    lrn_model l = m /\
    dls_device (lrn_dls l) = device /\
    lrn_loss_func l
    = CrossEntropyLoss
        (InvWeights (dl_dataset (dls_train (lrn_dls l))) device) 0 /\
    inv_weights_to (InvWeights (dl_dataset (dls_train (lrn_dls l))) device)
    ∈ calls_during empty_world (snd r) /\
    lrn_lr l = Float 1 (-4) /\
    lrn_wd l = Float 1 (-6) /\
    lrn_metrics l
    = [ AccumMetric_accuracy false; Precision "macro"; Recall "macro";
        F1Score "macro"; RocAuc "macro" ] /\
    lrn_path l
    = Path "models/" // Path (get_run_name (now E) main_backbone false).
Proof.
  intros E r m device.
  assert (H : r = (inr m, snd r))
    by (apply returns_eta; vm_compute; reflexivity).
  split; [exact H|].
  exact (train_learner E main_backbone "train" "valid" "models/" 64 false
           empty_world m (snd r) H).
Defined.

(** X5: in a run of [train] that returns, the image processor of the
    backbone is loaded once, and two augmentations are built from its
    size, mean and standard deviation: the first without the validation
    flag, for the dataset of [train_dir], the second with
    [validation=True], for the dataset of [valid_dir]; both datasets are
    built with [reduce_to_binary] equal to [binary]. *)
Theorem train_augmentations E backbone train_dir valid_dir save_dir
    batch_size binary w m w' :
  train E backbone train_dir valid_dir save_dir batch_size binary w
  = (inr m, w') ->
  let image_processor := pretrained_processor E backbone in
  exists train_ds valid_ds,
    processors_loaded (calls_during w w') = [backbone] /\
    datasets_built (calls_during w w') = [train_ds; valid_ds] /\
    augmentations_built (calls_during w w')
    = [ds_augmentation train_ds; ds_augmentation valid_ds] /\
    ds_root train_ds = train_dir /\
    ds_root valid_ds = valid_dir /\
    aug_validation (ds_augmentation train_ds) = None /\
    aug_validation (ds_augmentation valid_ds) = Some true /\
    (forall ds, ds ∈ [train_ds; valid_ds] ->
       aug_img_size (ds_augmentation ds)
       = (size_height image_processor, size_width image_processor) /\
       aug_mean (ds_augmentation ds) = image_mean image_processor /\
       aug_std (ds_augmentation ds) = image_std image_processor /\
       ds_reduce_to_binary ds = binary).
Proof.
  intros H.
  destruct (train_calls_during _ _ _ _ _ _ _ _ _ _ H) as [-> _].
  unfold train_calls. cbv zeta.
  destruct binary, (cuda_is_available E);
    do 2 eexists; do 7 (split; [reflexivity|]);
    intros ds Hds; each_call Hds; repeat split.
Qed.

Lemma train_augmentations_witness :
  let E := sample_env true in
  let r := train E main_backbone "train" "valid" "models/" 64 false
             empty_world in
  let image_processor := pretrained_processor E main_backbone in
  r = (inr (mk_model main_backbone 9), snd r) /\
  exists train_ds valid_ds,
    processors_loaded (calls_during empty_world (snd r)) = [main_backbone] /\
    datasets_built (calls_during empty_world (snd r))
    = [train_ds; valid_ds] /\
    augmentations_built (calls_during empty_world (snd r))
    = [ds_augmentation train_ds; ds_augmentation valid_ds] /\
    ds_root train_ds = "train" /\
    ds_root valid_ds = "valid" /\
    aug_validation (ds_augmentation train_ds) = None /\
    aug_validation (ds_augmentation valid_ds) = Some true /\
    (forall ds, ds ∈ [train_ds; valid_ds] ->
       aug_img_size (ds_augmentation ds)
       = (size_height image_processor, size_width image_processor) /\
       aug_mean (ds_augmentation ds) = image_mean image_processor /\
       aug_std (ds_augmentation ds) = image_std image_processor /\
       ds_reduce_to_binary ds = false).
Proof.
  intros E r image_processor.
  assert (H : r = (inr (mk_model main_backbone 9), snd r))
    by (apply returns_eta; vm_compute; reflexivity).
  split; [exact H|].
  exact (train_augmentations E main_backbone "train" "valid" "models/" 64
           false empty_world _ (snd r) H).
Defined.

Lemma any_run_safety_witness :
  let r := train failing_env main_backbone "train" "valid" "models/" 64 false
             empty_world in
  let ev := set_float32_matmul_precision "high" in
  (r = (fst r, snd r) /\ ev ∈ calls_during empty_world (snd r)) /\
  (forall d, d ∈ devices_of ev ->
     d = TorchDevice (if cuda_is_available failing_env
                      then "cuda" else "cpu")) /\
  (forall s, ev = set_float32_matmul_precision s ->
     s = "high" /\ cuda_is_available failing_env = true) /\
  (forall m dl, ev = validate_binarized m dl -> false = false) /\
  (forall m, m ∈ models_of ev ->
     model_n_classes m = reported_n_classes failing_env "train" false) /\
  (forall dl, ev = new_DataLoader dl ->
     dl_num_workers dl = cpu_count failing_env /\
     dl_drop_last dl = dl_shuffle dl).
Proof.
  intros r ev.
  assert (H : r = (fst r, snd r)) by apply surjective_pairing.
  assert (Hev : ev ∈ calls_during empty_world (snd r))
    by (vm_compute; apply list_elem_of_here).
  split; [now split|].
  exact (any_run_safety failing_env main_backbone "train" "valid" "models/"
           64 false empty_world (fst r) (snd r) H ev Hev).
Defined.

(** * Where the run directory lies *)

Section RunDirectory.

Lemma split_no_sep c s :
  PyStr.contains c s = false -> split c s = [s].
Proof.
  induction s as [|a s IH]; intros H; [reflexivity|].
  simpl in *. destruct (Ascii.eqb a c); [discriminate|].
  now rewrite IH.
Qed.

(** A non-empty name without ['/'], other than ["."], is a path of one
    component. *)
Lemma Path_one_component s :
  PyStr.contains "/" s = false -> is_component s = true ->
  Path s = mk_path false [s].
Proof.
  intros Hs Hc. unfold Path. rewrite (split_no_sep _ _ Hs). simpl.
  rewrite Hc. f_equal.
  destruct s as [|a s]; [reflexivity|].
  rewrite prefix_char_cons. simpl in Hs.
  now destruct (Ascii.eqb a "/").
Qed.

Lemma isoformat_lacks c t :
  is_digit c = false -> PyStr.contains c "-T:." = false ->
  PyStr.contains c (isoformat_milliseconds t) = false.
Proof.
  intros Hd Hc. unfold isoformat_milliseconds.
  rewrite !contains_app.
  rewrite !(all_digits_contains c (PyStr.format_0d _ _))
    by (assumption || apply all_digits_format).
  cbn [PyStr.contains] in Hc |- *.
  destruct (Ascii.eqb "-" c), (Ascii.eqb "T" c), (Ascii.eqb ":" c),
    (Ascii.eqb "." c); try discriminate; reflexivity.
Qed.

Lemma run_name_slash now backbone is_binary :
  PyStr.contains "/" (get_run_name now backbone is_binary)
  = PyStr.contains "/" (backbone_name backbone).
Proof.
  unfold get_run_name. rewrite !contains_app.
  rewrite (isoformat_lacks "/") by reflexivity.
  destruct is_binary; simpl; now rewrite !orb_false_r.
Qed.

Lemma run_name_is_component now backbone is_binary :
  is_component (get_run_name now backbone is_binary) = true.
Proof.
  assert (H : PyStr.contains "_" (get_run_name now backbone is_binary) = true).
  { unfold get_run_name. rewrite contains_app.
    change ("_binary=" +:+ ?s) with (String "_" ("binary=" +:+ s)).
    simpl. apply orb_true_r. }
  unfold is_component.
  destruct (String.eqb_spec (get_run_name now backbone is_binary) EmptyString)
    as [Heq|_]; [rewrite Heq in H; discriminate|].
  destruct (String.eqb_spec (get_run_name now backbone is_binary) ".")
    as [Heq|_]; [rewrite Heq in H; discriminate|].
  reflexivity.
Qed.

Lemma run_directory_parts now backbone save_dir is_binary :
  PyStr.contains "/" (backbone_name backbone) = false ->
  Path save_dir // Path (get_run_name now backbone is_binary)
  = mk_path (anchored (Path save_dir))
      (parts (Path save_dir) ++ [get_run_name now backbone is_binary]).
Proof.
  intros H.
  rewrite (Path_one_component (get_run_name now backbone is_binary)).
  - reflexivity.
  - now rewrite run_name_slash.
  - apply run_name_is_component.
Qed.

Lemma run_name_plain now backbone is_binary :
  plain (get_run_name now backbone is_binary).
Proof.
  unfold plain.
  destruct (String.eqb_spec (get_run_name now backbone is_binary) "..")
    as [Heq|_]; [|reflexivity].
  assert (H : PyStr.contains "_" (get_run_name now backbone is_binary) = true).
  { unfold get_run_name. rewrite contains_app.
    change ("_binary=" +:+ ?s) with (String "_" ("binary=" +:+ s)).
    simpl. apply orb_true_r. }
  rewrite Heq in H. discriminate.
Qed.

End RunDirectory.

(** X8: when what is left of the backbone after its first ['/'] contains
    no further ['/'] (a backbone with at most one ['/']), the run
    directory is the entry of [save_dir] named by the run name. *)
Theorem run_directory_in_save_dir now backbone save_dir is_binary :
  PyStr.contains "/" (backbone_name backbone) = false ->
  Path save_dir // Path (get_run_name now backbone is_binary)
  = mk_path (anchored (Path save_dir))
      (parts (Path save_dir) ++ [get_run_name now backbone is_binary]).
Proof. apply run_directory_parts. Qed.

Lemma run_directory_in_save_dir_witness :
  let now := mk_datetime 2024 3 7 9 5 2 41999 in
  PyStr.contains "/" (backbone_name main_backbone) = false /\
  Path "models/" // Path (get_run_name now main_backbone true)
  = mk_path (anchored (Path "models/"))
      (parts (Path "models/") ++ [get_run_name now main_backbone true]).
Proof.
  intros now. split; [reflexivity|].
  apply (run_directory_in_save_dir now main_backbone "models/" true).
  reflexivity.
Defined.

(** X9: when what is left of the backbone after its first ['/'] begins
    with another ['/'], the run name is an absolute path and the run
    directory is that path: [save_dir] plays no part. *)
Theorem run_directory_outside_save_dir now backbone save_dir is_binary :
  String.prefix "/" (backbone_name backbone) = true ->
  Path save_dir // Path (get_run_name now backbone is_binary)
  = Path (get_run_name now backbone is_binary) /\
  anchored (Path save_dir // Path (get_run_name now backbone is_binary))
  = true.
Proof.
  intros H.
  assert (Ha : anchored (Path (get_run_name now backbone is_binary)) = true).
  { unfold Path, get_run_name. cbn [anchored].
    destruct (backbone_name backbone) as [|a s]; [discriminate|].
    rewrite app_cons, prefix_char_cons.
    now rewrite prefix_char_cons in H. }
  unfold join. now rewrite Ha.
Qed.

Lemma run_directory_outside_save_dir_witness :
  let now := mk_datetime 2024 3 7 9 5 2 41999 in
  String.prefix "/" (backbone_name "org//net") = true /\
  Path "models/" // Path (get_run_name now "org//net" true)
  = Path (get_run_name now "org//net" true) /\
  anchored (Path "models/" // Path (get_run_name now "org//net" true))
  = true.
Proof.
  intros now. split; [reflexivity|].
  apply (run_directory_outside_save_dir now "org//net" "models/" true).
  reflexivity.
Defined.

(** * The order of run names *)

Section StringOrder.

Lemma ascii_compare_refl a : Ascii.compare a a = Eq.
Proof. apply N.compare_refl. Qed.

Lemma string_compare_refl s : String.compare s s = Eq.
Proof.
  induction s as [|a s IH]; [reflexivity|].
  simpl. now rewrite ascii_compare_refl.
Qed.

Lemma ascii_compare_lt_trans a b c :
  Ascii.compare a b = Lt -> Ascii.compare b c = Lt -> Ascii.compare a c = Lt.
Proof.
  unfold Ascii.compare. rewrite !N.compare_lt_iff. apply N.lt_trans.
Qed.

Lemma string_compare_lt_trans s1 s2 s3 :
  String.compare s1 s2 = Lt -> String.compare s2 s3 = Lt ->
  String.compare s1 s3 = Lt.
Proof.
  revert s2 s3.
  induction s1 as [|a s1 IH]; intros [|b s2] [|c s3]; simpl;
    try discriminate; try reflexivity.
  destruct (Ascii.compare a b) eqn:Hab; try discriminate;
    destruct (Ascii.compare b c) eqn:Hbc; try discriminate.
  - apply Ascii.compare_eq_iff in Hab, Hbc. subst.
    rewrite ascii_compare_refl. apply IH.
  - apply Ascii.compare_eq_iff in Hab. subst. now rewrite Hbc.
  - apply Ascii.compare_eq_iff in Hbc. subst. now rewrite Hab.
  - now rewrite (ascii_compare_lt_trans a b c).
Qed.

(** A common beginning plays no part in the order. *)
Lemma string_compare_app_prefix p s t :
  String.compare (p +:+ s) (p +:+ t) = String.compare s t.
Proof.
  induction p as [|a p IH]; [reflexivity|].
  rewrite !app_cons. simpl. now rewrite ascii_compare_refl.
Qed.

(** Equally long beginnings decide first. *)
Lemma string_compare_app_same_length s s' t t' :
  String.length s = String.length s' ->
  String.compare (s +:+ t) (s' +:+ t')
  = match String.compare s s' with
    | Eq => String.compare t t'
    | c => c
    end.
Proof.
  revert s'. induction s as [|a s IH]; intros [|a' s'] Hlen;
    try discriminate; [reflexivity|].
  injection Hlen as Hlen. rewrite !app_cons. simpl.
  destruct (Ascii.compare a a'); auto.
Qed.

End StringOrder.

Section FixedWidth.

Variable w : nat.
Variable bound : N.
Hypothesis Hcheck : fixed_width_check w bound = true.

Lemma upto_elem fuel i n :
  (i <= n)%N -> (n < i + N.of_nat fuel)%N -> In n (upto fuel i).
Proof.
  revert i. induction fuel as [|k IH]; intros i Hle Hlt; [lia|].
  simpl. destruct (N.eq_dec i n) as [->|Hne]; [now left|].
  right. apply IH; lia.
Qed.

Lemma checked n :
  (n < bound)%N ->
  String.length (PyStr.format_0d w n) = w /\
  ((N.succ n < bound)%N ->
   String.compare (PyStr.format_0d w n) (PyStr.format_0d w (N.succ n)) = Lt).
Proof.
  intros Hn. unfold fixed_width_check in Hcheck.
  rewrite forallb_forall in Hcheck.
  assert (Hin : In n (upto (N.to_nat bound) 0))
    by (apply upto_elem; [lia | rewrite N2Nat.id; lia]).
  specialize (Hcheck n Hin).
  apply andb_true_iff in Hcheck as [Hlen Hnext].
  split; [now apply Nat.eqb_eq|].
  intros Hs. apply N.ltb_lt in Hs. rewrite Hs in Hnext.
  now destruct (String.compare _ _).
Qed.

Lemma format_length n :
  (n < bound)%N -> String.length (PyStr.format_0d w n) = w.
Proof. intros Hn. now apply checked. Qed.

Lemma format_increasing n m :
  (n < m)%N -> (m < bound)%N ->
  String.compare (PyStr.format_0d w n) (PyStr.format_0d w m) = Lt.
Proof.
  revert n. induction m as [|m IH] using N.peano_ind; intros n Hnm Hm;
    [lia|].
  destruct (N.eq_dec n m) as [->|Hne].
  - apply checked; lia.
  - apply (string_compare_lt_trans _ (PyStr.format_0d w m)).
    + apply IH; lia.
    + apply checked; lia.
Qed.

(** Below [bound], zero-padded numbers are ordered as strings the way
    they are as numbers. *)
Lemma format_compare n m :
  (n < bound)%N -> (m < bound)%N ->
  String.compare (PyStr.format_0d w n) (PyStr.format_0d w m) = N.compare n m.
Proof.
  intros Hn Hm. destruct (N.compare_spec n m) as [->|Hlt|Hgt].
  - apply string_compare_refl.
  - now apply format_increasing.
  - rewrite String.compare_antisym.
    now rewrite (format_increasing m n Hgt Hn).
Qed.

(** One field of the timestamp, its separator, and the rest. *)
Lemma field_compare n m sep rest rest' :
  (n < bound)%N -> (m < bound)%N ->
  String.compare (PyStr.format_0d w n +:+ String sep EmptyString +:+ rest)
                 (PyStr.format_0d w m +:+ String sep EmptyString +:+ rest')
  = match N.compare n m with
    | Eq => String.compare rest rest'
    | c => c
    end.
Proof.
  intros Hn Hm.
  rewrite string_compare_app_same_length
    by (now rewrite !format_length).
  rewrite format_compare by assumption.
  now rewrite string_compare_app_prefix.
Qed.

End FixedWidth.

Lemma check_4 : fixed_width_check 4 10000 = true.
Proof. vm_compute. reflexivity. Qed.

Lemma check_2 : fixed_width_check 2 100 = true.
Proof. vm_compute. reflexivity. Qed.

Lemma check_3 : fixed_width_check 3 1000 = true.
Proof. vm_compute. reflexivity. Qed.

(** For clock readings within [datetime]'s ranges, ISO timestamps are
    ordered as strings the way the readings are in time. *)
Lemma isoformat_compare t1 t2 :
  valid_datetime t1 -> valid_datetime t2 ->
  String.compare (isoformat_milliseconds t1) (isoformat_milliseconds t2)
  = lex_compare (millis_stamp t1) (millis_stamp t2).
Proof.
  intros (Hy1 & Hm1 & Hd1 & Hh1 & Hmi1 & Hs1 & Hu1)
         (Hy2 & Hm2 & Hd2 & Hh2 & Hmi2 & Hs2 & Hu2).
  assert (Hms1 : (microsecond t1 / 1000 < 1000)%N)
    by (apply N.Div0.div_lt_upper_bound; lia).
  assert (Hms2 : (microsecond t2 / 1000 < 1000)%N)
    by (apply N.Div0.div_lt_upper_bound; lia).
  unfold isoformat_milliseconds, millis_stamp. cbn [lex_compare].
  rewrite (field_compare 4 10000 check_4) by lia.
  do 5 (rewrite (field_compare 2 100 check_2) by lia).
  rewrite (format_compare 3 1000 check_3) by assumption.
  now destruct (N.compare (microsecond t1 / 1000) (microsecond t2 / 1000)).
Qed.

(** X10: run names sort by time.  For a fixed backbone and flag, and
    clock readings within [datetime]'s ranges, two run names compare as
    strings the way the two readings, cut to the millisecond, compare
    field by field from the year down. *)
Theorem run_names_sort_by_time t1 t2 backbone is_binary :
  valid_datetime t1 -> valid_datetime t2 ->
  String.compare (get_run_name t1 backbone is_binary)
                 (get_run_name t2 backbone is_binary)
  = lex_compare (millis_stamp t1) (millis_stamp t2).
Proof.
  intros H1 H2. unfold get_run_name.
  rewrite !string_compare_app_prefix.
  now apply isoformat_compare.
Qed.

Lemma run_names_sort_by_time_witness :
  let t1 := mk_datetime 2024 3 7 9 5 2 41999 in
  let t2 := mk_datetime 2024 11 30 0 0 0 0 in
  (valid_datetime t1 /\ valid_datetime t2) /\
  String.compare (get_run_name t1 main_backbone true)
                 (get_run_name t2 main_backbone true)
  = lex_compare (millis_stamp t1) (millis_stamp t2).
Proof.
  intros t1 t2.
  assert (H1 : valid_datetime t1) by (unfold valid_datetime; simpl; lia).
  assert (H2 : valid_datetime t2) by (unfold valid_datetime; simpl; lia).
  split; [now split|].
  exact (run_names_sort_by_time t1 t2 main_backbone true H1 H2).
Defined.

(** * More on run names *)

Lemma isoformat_of_stamp t1 t2 :
  millis_stamp t1 = millis_stamp t2 ->
  isoformat_milliseconds t1 = isoformat_milliseconds t2.
Proof.
  unfold millis_stamp, isoformat_milliseconds.
  now intros [= -> -> -> -> -> -> ->].
Qed.

(** X11: two run names are equal exactly when they were made from the
    same backbone name (the backbone after its first ['/']), the same flag
    and the same clock reading cut to the millisecond. *)
Theorem run_names_equal_iff t1 t2 backbone1 backbone2 (flag1 flag2 : bool) :
  get_run_name t1 backbone1 flag1 = get_run_name t2 backbone2 flag2
  <-> backbone_name backbone1 = backbone_name backbone2 /\
      flag1 = flag2 /\
      millis_stamp t1 = millis_stamp t2.
Proof.
  split.
  - intros H. apply (f_equal parse_run_name) in H.
    rewrite !parse_get_run_name in H. injection H as Hb Hf Ht.
    split; [assumption|]. split.
    + now destruct flag1, flag2.
    + now apply isoformat_inj.
  - intros (Hb & -> & Ht). unfold get_run_name.
    now rewrite Hb, (isoformat_of_stamp t1 t2 Ht).
Qed.

Lemma run_names_equal_iff_witness :
  let t1 := mk_datetime 2024 3 7 9 5 2 41999 in
  let t2 := mk_datetime 2024 3 7 9 5 2 41000 in
  (backbone_name "google/efficientnet-b0" = backbone_name "timm/efficientnet-b0"
   /\ true = true /\ millis_stamp t1 = millis_stamp t2) /\
  get_run_name t1 "google/efficientnet-b0" true
  = get_run_name t2 "timm/efficientnet-b0" true.
Proof.
  intros t1 t2.
  assert (H : backbone_name "google/efficientnet-b0"
              = backbone_name "timm/efficientnet-b0"
              /\ true = true /\ millis_stamp t1 = millis_stamp t2)
    by (repeat split).
  split; [exact H|].
  exact (proj2 (run_names_equal_iff t1 t2 "google/efficientnet-b0"
                  "timm/efficientnet-b0" true true) H).
Defined.

(** X12: for a backbone with exactly one ['/'] (an identifier of the form
    [organisation/name]), the backbone segment of the run name is what
    follows that ['/'], which is then also the substring after the last
    ['/']. *)
Theorem run_name_backbone_single_slash now organisation name is_binary :
  PyStr.contains "/" organisation = false ->
  PyStr.contains "/" name = false ->
  let backbone := organisation +:+ "/" +:+ name in
  seg_backbone <$> parse_run_name (get_run_name now backbone is_binary)
  = Some name /\
  after_last_slash backbone = Some name.
Proof.
  intros Ho Hn backbone. subst backbone.
  change ("/" +:+ name) with (String "/" name).
  rewrite parse_get_run_name. simpl.
  rewrite backbone_name_first by assumption.
  unfold after_last_slash. now rewrite rpartition_last.
Qed.

Lemma run_name_backbone_single_slash_witness :
  let now := mk_datetime 2024 3 7 9 5 2 41999 in
  (PyStr.contains "/" "google" = false /\
   PyStr.contains "/" "efficientnet-b3" = false) /\
  seg_backbone <$> parse_run_name
    (get_run_name now ("google" +:+ "/" +:+ "efficientnet-b3") false)
  = Some "efficientnet-b3" /\
  after_last_slash ("google" +:+ "/" +:+ "efficientnet-b3")
  = Some "efficientnet-b3".
Proof.
  intros now. split; [now split|].
  apply (run_name_backbone_single_slash now "google" "efficientnet-b3" false);
    reflexivity.
Defined.

Lemma names_differ_when_apart_witness :
  let t1 := mk_datetime 2024 3 7 9 5 2 41999 in
  let t2 := mk_datetime 2024 3 7 9 5 2 42999 in
  (micros_of_day t1 + 1000 <= micros_of_day t2)%N /\
  get_run_name t1 main_backbone true <> get_run_name t2 main_backbone true.
Proof.
  intros t1 t2.
  assert (H : (micros_of_day t1 + 1000 <= micros_of_day t2)%N)
    by (vm_compute; discriminate).
  split; [exact H|].
  exact (names_differ_when_apart t1 t2 main_backbone true H).
Defined.

(** * Validation *)

(** X13: in a run of [train] that returns, both loaders are built with
    the caller's batch size and [pin_memory=True], and the model is
    validated once, by [validate] on the returned model and the
    validation loader; [validate_binarized], when it is called, is given
    the same model and loader. *)
Theorem train_validation E backbone train_dir valid_dir save_dir batch_size
    binary w m w' :
  train E backbone train_dir valid_dir save_dir batch_size binary w
  = (inr m, w') ->
  exists train_dl valid_dl,
    loaders_built (calls_during w w') = [train_dl; valid_dl] /\
    dl_batch_size train_dl = batch_size /\
    dl_batch_size valid_dl = batch_size /\
    dl_pin_memory train_dl = true /\
    dl_pin_memory valid_dl = true /\
    validations (calls_during w w') = [(m, valid_dl)] /\
    forall m' dl, (m', dl) ∈ binarized_validations (calls_during w w') ->
                  m' = m /\ dl = valid_dl.
Proof.
  intros H.
  destruct (train_calls_during _ _ _ _ _ _ _ _ _ _ H) as [-> ->].
  unfold train_calls, loaded_model. cbv zeta.
  destruct binary, (cuda_is_available E);
    do 2 eexists; do 6 (split; [reflexivity|]);
    intros m' dl Hin; simpl in Hin;
    repeat (apply elem_of_cons in Hin as [[= -> ->]|Hin]; [now split|]);
    now apply elem_of_nil in Hin.
Qed.

Lemma train_validation_witness :
  let E := sample_env true in
  let r := train E main_backbone "train" "valid" "models/" 64 false
             empty_world in
  let m := mk_model main_backbone 9 in
  r = (inr m, snd r) /\
  exists train_dl valid_dl,
    loaders_built (calls_during empty_world (snd r))
    = [train_dl; valid_dl] /\
    dl_batch_size train_dl = 64 /\
    dl_batch_size valid_dl = 64 /\
    dl_pin_memory train_dl = true /\
    dl_pin_memory valid_dl = true /\
    validations (calls_during empty_world (snd r)) = [(m, valid_dl)] /\
    forall m' dl,
      (m', dl) ∈ binarized_validations (calls_during empty_world (snd r)) ->
      m' = m /\ dl = valid_dl.
Proof.
  intros E r m.
  assert (H : r = (inr m, snd r))
    by (apply returns_eta; vm_compute; reflexivity).
  split; [exact H|].
  exact (train_validation E main_backbone "train" "valid" "models/" 64 false
           empty_world m (snd r) H).
Defined.

(** * The script's run *)

(** The script trains in binary mode: when its run returns, the run
    directory is the entry of the script's [models/] directory named by
    the run name, the loaders take batches of 32, and no binarized report
    is made. *)
Lemma main_run E w m w' :
  main E w = (inr m, w') ->
  Path main_save_dir // Path (get_run_name (now E) main_backbone true)
  = mk_path true
      [ "home"; "aaron"; "Documents"; "Studium"; "Informatik"; "7_Semester";
        "EKFZ"; "NewEPOC"; "models";
        "swinv2-tiny-patch4-window8-256_binary=True_"
        +:+ isoformat_milliseconds (now E) ] /\
  binarized_validations (calls_during w w') = [] /\
  forall dl, dl ∈ loaders_built (calls_during w w') -> dl_batch_size dl = 32.
Proof.
  unfold main. cbv zeta. intros H. split; [|split].
  - now rewrite run_directory_parts by reflexivity.
  - destruct (train_calls_during _ _ _ _ _ _ _ _ _ _ H) as [-> _].
    unfold train_calls. now destruct (cuda_is_available E).
  - destruct (train_calls_during _ _ _ _ _ _ _ _ _ _ H) as [-> _].
    unfold train_calls. intros dl Hin.
    destruct (cuda_is_available E); each_call Hin; reflexivity.
Qed.

(** * A run directory that cannot be made *)

Section Blocked.

Implicit Types (f : filesystem) (p : path) (d : list string).

(** [mkdir(parents=True, exist_ok=True)] passes on every error of
    [os.mkdir] but [FileNotFoundError] when the path is no directory. *)
Lemma mkdir_blocked p parents f e :
  os_mkdir p f = inl e -> e <> ENOENT -> is_dir f p = false ->
  FS.mkdir p parents true f = (inl (OSError e), f).
Proof.
  intros Hos He Hd. unfold FS.mkdir.
  rewrite <- (path_eta p) in Hos, Hd.
  destruct (rev (parts p)); unfold mkdir_rev; fold mkdir_rev; cbv zeta;
    rewrite Hos, Hd; now destruct e.
Qed.

Lemma train_mkdir_raises E backbone train_dir valid_dir save_dir batch_size
    binary w e :
  FS.mkdir (Path save_dir // Path (get_run_name (now E) backbone binary))
    true true (w_fs w) = (inl e, w_fs w) ->
  train E backbone train_dir valid_dir save_dir batch_size binary w
  = (inl e, w).
Proof.
  intros H. unfold train. cbv zeta. apply bind_inl_l.
  unfold on_fs. rewrite H. now destruct w.
Qed.

End Blocked.

(** X15: when a regular file already has the run's name inside
    [save_dir], [exist_ok=True] does not help: [train] raises
    [FileExistsError] before any library call, and leaves the disk as it
    was (backbones with at most one ['/']). *)
Theorem train_run_name_taken E backbone train_dir valid_dir save_dir
    batch_size binary w d c :
  let run_name := get_run_name (now E) backbone binary in
  PyStr.contains "/" (backbone_name backbone) = false ->
  walk (w_fs w) (start (w_fs w) (Path save_dir)) (parts (Path save_dir))
  = inr d ->
  nodes (w_fs w) !! (d ++ [run_name]) = Some (File c) ->
  train E backbone train_dir valid_dir save_dir batch_size binary w
  = (inl (OSError EEXIST), w).
Proof.
  intros run_name Hb Hw Hn. apply train_mkdir_raises.
  rewrite run_directory_parts by assumption. fold run_name.
  pose proof (run_name_plain (now E) backbone binary) as Hp.
  fold run_name in Hp. unfold plain in Hp.
  apply mkdir_blocked; [|discriminate|].
  - unfold os_mkdir, start in *. cbn [anchored parts].
    rewrite unsnoc_snoc, Hw, Hp.
    now rewrite nodes_node_at, Hn by apply snoc_not_nil.
  - unfold is_dir, start in *. cbn [anchored parts].
    rewrite walk_app, Hw. simpl. rewrite Hp.
    now rewrite nodes_node_at, Hn by apply snoc_not_nil.
Qed.

Lemma train_run_name_taken_witness :
  let E := sample_env true in
  let run_name := get_run_name (now E) main_backbone false in
  let d := ["home"; "user"; "models"] in
  (PyStr.contains "/" (backbone_name main_backbone) = false /\
   walk (w_fs taken_world) (start (w_fs taken_world) (Path "models/"))
     (parts (Path "models/")) = inr d /\
   nodes (w_fs taken_world) !! (d ++ [run_name]) = Some (File "notes")) /\
  train E main_backbone "train" "valid" "models/" 64 false taken_world
  = (inl (OSError EEXIST), taken_world).
Proof.
  intros E run_name d.
  assert (H1 : PyStr.contains "/" (backbone_name main_backbone) = false)
    by reflexivity.
  assert (H2 : walk (w_fs taken_world)
                 (start (w_fs taken_world) (Path "models/"))
                 (parts (Path "models/")) = inr d)
    by (vm_compute; reflexivity).
  assert (H3 : nodes (w_fs taken_world) !! (d ++ [run_name])
               = Some (File "notes"))
    by (vm_compute; reflexivity).
  split; [now repeat split|].
  exact (train_run_name_taken E main_backbone "train" "valid" "models/" 64
           false taken_world d "notes" H1 H2 H3).
Defined.

(** X16: when [save_dir] leads through a regular file, [train] raises
    [NotADirectoryError] before any library call, and leaves the disk as
    it was (backbones with at most one ['/']). *)
Theorem train_save_dir_is_file E backbone train_dir valid_dir save_dir
    batch_size binary w :
  PyStr.contains "/" (backbone_name backbone) = false ->
  walk (w_fs w) (start (w_fs w) (Path save_dir)) (parts (Path save_dir))
  = inl ENOTDIR ->
  train E backbone train_dir valid_dir save_dir batch_size binary w
  = (inl (OSError ENOTDIR), w).
Proof.
  intros Hb Hw. apply train_mkdir_raises.
  rewrite run_directory_parts by assumption.
  apply mkdir_blocked; [|discriminate|].
  - unfold os_mkdir, start in *. cbn [anchored parts].
    now rewrite unsnoc_snoc, Hw.
  - unfold is_dir, start in *. cbn [anchored parts].
    now rewrite walk_app, Hw.
Qed.

Lemma train_save_dir_is_file_witness :
  let E := sample_env true in
  (PyStr.contains "/" (backbone_name main_backbone) = false /\
   walk (w_fs file_world) (start (w_fs file_world) (Path "models/"))
     (parts (Path "models/")) = inl ENOTDIR) /\
  train E main_backbone "train" "valid" "models/" 64 false file_world
  = (inl (OSError ENOTDIR), file_world).
Proof.
  intros E.
  assert (H1 : PyStr.contains "/" (backbone_name main_backbone) = false)
    by reflexivity.
  assert (H2 : walk (w_fs file_world)
                 (start (w_fs file_world) (Path "models/"))
                 (parts (Path "models/")) = inl ENOTDIR)
    by (vm_compute; reflexivity).
  split; [now split|].
  exact (train_save_dir_is_file E main_backbone "train" "valid" "models/" 64
           false file_world H1 H2).
Defined.

(** X18: when the run name is new in [save_dir] but longer than a
    directory entry may be (a long backbone), [train] raises the
    [OSError] of [mkdir], [ENAMETOOLONG], before any library call, and
    leaves the disk as it was (backbones with at most one ['/']). *)
Theorem train_run_name_too_long E backbone train_dir valid_dir save_dir
    batch_size binary w d :
  let run_name := get_run_name (now E) backbone binary in
  PyStr.contains "/" (backbone_name backbone) = false ->
  walk (w_fs w) (start (w_fs w) (Path save_dir)) (parts (Path save_dir))
  = inr d ->
  nodes (w_fs w) !! (d ++ [run_name]) = None ->
  fits run_name = false ->
  train E backbone train_dir valid_dir save_dir batch_size binary w
  = (inl (OSError ENAMETOOLONG), w).
Proof.
  intros run_name Hb Hw Hn Hlong. apply train_mkdir_raises.
  rewrite run_directory_parts by assumption. fold run_name.
  pose proof (run_name_plain (now E) backbone binary) as Hp.
  fold run_name in Hp. unfold plain in Hp.
  apply mkdir_blocked; [|discriminate|].
  - unfold os_mkdir, start in *. cbn [anchored parts].
    rewrite unsnoc_snoc, Hw, Hp.
    now rewrite nodes_node_at, Hn, Hlong by apply snoc_not_nil.
  - unfold is_dir, start in *. cbn [anchored parts].
    rewrite walk_app, Hw. simpl. rewrite Hp.
    now rewrite nodes_node_at, Hn by apply snoc_not_nil.
Qed.

Lemma train_run_name_too_long_witness :
  let E := sample_env true in
  let run_name := get_run_name (now E) long_backbone false in
  let d := ["home"; "user"; "models"] in
  (PyStr.contains "/" (backbone_name long_backbone) = false /\
   walk (w_fs taken_world) (start (w_fs taken_world) (Path "models/"))
     (parts (Path "models/")) = inr d /\
   nodes (w_fs taken_world) !! (d ++ [run_name]) = None /\
   fits run_name = false) /\
  train E long_backbone "train" "valid" "models/" 64 false taken_world
  = (inl (OSError ENAMETOOLONG), taken_world).
Proof.
  intros E run_name d.
  assert (H1 : PyStr.contains "/" (backbone_name long_backbone) = false)
    by (vm_compute; reflexivity).
  assert (H2 : walk (w_fs taken_world)
                 (start (w_fs taken_world) (Path "models/"))
                 (parts (Path "models/")) = inr d)
    by (vm_compute; reflexivity).
  assert (H3 : nodes (w_fs taken_world) !! (d ++ [run_name]) = None)
    by (vm_compute; reflexivity).
  assert (H4 : fits run_name = false) by (vm_compute; reflexivity).
  split; [now repeat split|].
  exact (train_run_name_too_long E long_backbone "train" "valid" "models/" 64
           false taken_world d H1 H2 H3 H4).
Defined.

(** * The creation of the run directory *)

Section Steady.

Variable E : env.








End Steady.





